(** * facemesh.ts: box cache, frame skipping and face results

    A shallow embedding of [src/face/facemesh.ts] (functions [predict] and
    [load] with the module-level variables they share) and the properties
    of its box cache.

    Modelling choices.
    - A JavaScript [number] is an exact rational ([Q]); rounding of IEEE
      doubles, [NaN] and the infinities are outside the model.  The value
      [undefined] is [None] wherever the source guards against it (optional
      chaining, [|| 0]).  The divisions of [meshRaw], whose divisors can be
      zero, are [quotient]s: a division by zero gives no number.
    - The module-level variables form the record [State]; [predict] and
      [load] are state transformers that also return the list of calls they
      make to the outside (detector, mesh model, logger): [event].
    - Everything imported from other modules (blazeface, facemeshutil,
      facemeshcoords, iris, util, tfjs) is a field of the classes [Tfjs] and
      [Imports]; the theorems hold for every implementation of them.
    - [await] is sequencing and calls do not overlap: a call of [predict]
      or [load] has finished before the next one starts.  [tf.dispose] only
      releases memory and is not modelled. *)

From Stdlib Require Import QArith Qround ZArith String Bool Lia Lqa.
From stdpp Require Import base option list.

Open Scope Q_scope.

(** ** Numbers *)

Definition number : Type := Q.

(** [a < b] and [a > b] of JavaScript, through the three-way comparison. *)
Definition js_lt (a b : number) : bool :=
  match a ?= b with Lt => true | _ => false end.

Definition js_gt (a b : number) : bool :=
  match a ?= b with Gt => true | _ => false end.

(** A number is falsy exactly when it is zero. *)
Definition truthy (x : number) : bool := negb (Qeq_bool x 0).

(** [x || d] for a number [x]. *)
Definition num_or (x d : number) : number := if truthy x then x else d.

(** [x || d] for a number that may be [undefined]. *)
Definition opt_or (x : option number) (d : number) : number :=
  match x with Some v => num_or v d | None => d end.

(** Truthiness of a boolean that may be [undefined]. *)
Definition opt_true (b : option bool) : bool :=
  match b with Some v => v | None => false end.

(** [Math.round]: the nearest integer, halves going up. *)
Definition Math_round (x : number) : number := inject_Z (Qfloor (x + (1 # 2))).

Definition MAX_SAFE_INTEGER : number := inject_Z (2 ^ 53 - 1).

(** ** Data *)

(** [type Point = [number, number, number?]] *)
Module Point.
Record t : Type := mk { x : number; y : number; z : option number }.
End Point.

(** [a / b] where [b] may be zero: the source then gives [Infinity],
    [-Infinity] or [NaN], none of which is a number of the model. *)
Definition quotient (a b : number) : option number :=
  if Qeq_bool b 0 then None else Some (a / b).

(** A point of [meshRaw]: three quotients. *)
Module RawPoint.
Record t : Type := mk { x : option number; y : option number; z : option number }.
End RawPoint.

(** [[x, y]] and [[x, y, z]] *)
Definition point2 (a b : number) : Point.t := Point.mk a b None.
Definition point3 (a b c : number) : Point.t := Point.mk a b (Some c).

(** [type Box = [number, number, number, number]] *)
Definition Box : Type := (number * number * number * number)%type.

(** [type BoxCache] *)
Record BoxCache : Type := mkBoxCache {
  startPoint : Point.t;
  endPoint : Point.t;
  landmarks : list Point.t;
  confidence : number
}.

(** [box.confidence = v] *)
Definition set_confidence (b : BoxCache) (v : number) : BoxCache :=
  mkBoxCache (startPoint b) (endPoint b) (landmarks b) v.

(** The part of [Config] that [facemesh.ts] reads.  Every nested object and
    every field of it may be missing, as the source's [?.] and [||]
    assume. *)
Module Config.
Record FaceDetector : Type := mkDetector {
  rotation : option bool;
  skipTime : option number;
  skipFrames : option number;
  minConfidence : option number
}.
Record FaceMesh : Type := mkMesh {
  enabled : option bool;
  modelPath : option string
}.
Record FaceIris : Type := mkIris { iris_enabled : option bool }.
Record Face : Type := mkFace {
  detector : option FaceDetector;
  mesh : option FaceMesh;
  iris : option FaceIris
}.
Record t : Type := mk {
  skipAllowed : bool;
  debug : bool;
  modelBasePath : string;
  face : Face
}.
End Config.

(** [config.face.detector?.skipTime || 0] *)
Definition cfg_skipTime (c : Config.t) : number :=
  opt_or (Config.detector (Config.face c) ≫= Config.skipTime) 0.

(** [config.face.detector?.skipFrames || 0] *)
Definition cfg_skipFrames (c : Config.t) : number :=
  opt_or (Config.detector (Config.face c) ≫= Config.skipFrames) 0.

(** [config.face.detector?.minConfidence || 1] *)
Definition cfg_minConfidence (c : Config.t) : number :=
  opt_or (Config.detector (Config.face c) ≫= Config.minConfidence) 1.

(** [config.face.detector?.rotation] *)
Definition cfg_rotation (c : Config.t) : bool :=
  opt_true (Config.detector (Config.face c) ≫= Config.rotation).

(** [config.face.mesh?.enabled] *)
Definition cfg_mesh_enabled (c : Config.t) : bool :=
  opt_true (Config.mesh (Config.face c) ≫= Config.enabled).

(** [config.face.iris?.enabled] *)
Definition cfg_iris_enabled (c : Config.t) : bool :=
  opt_true (Config.iris (Config.face c) ≫= Config.iris_enabled).

(** [config.face.mesh?.modelPath] and [config.face.mesh?.modelPath || ''] *)
Definition cfg_modelPath (c : Config.t) : option string :=
  Config.mesh (Config.face c) ≫= Config.modelPath.

Definition str_or (s : option string) (d : string) : string :=
  match s with
  | Some v => if String.eqb v "" then d else v
  | None => d
  end.

(** [env]: the fields of the runtime environment that are read. *)
Module Env.
Record t : Type := mk { kernels : list string; initial : bool }.
End Env.

(** [env.kernels.includes(k)] *)
Definition includes (ks : list string) (k : string) : bool :=
  existsb (String.eqb k) ks.

(** The two readings of [now()] made by one call of [predict]: on entry and
    after the detector has answered. *)
Module Clock.
Record t : Type := mk { entry : number; detected : number }.
End Clock.

(** ** The tensor runtime and the imported modules *)

(** What [facemesh.ts] needs of tfjs tensors.  A detector box is returned as
    tensors and read back with [data()] and [array()]. *)
Class Tfjs : Type := {
  Tensor : Type;
  (** [input.shape] *)
  shape : Tensor -> list number;
  (** [await t.data() as Point] *)
  data : Tensor -> Point.t;
  (** [await t.array() as Array<Point>] *)
  array : Tensor -> list Point.t
}.

(** The mesh model.  [execute] stands for [model.execute(face.tensor)]
    followed by reading its outputs: [(await confidence.data())[0]] and
    [await tf.reshape(contourCoords, [-1, 3]).array()]. *)
Module GraphModel.
Record Output : Type := mkOutput {
  faceConfidence : number;
  rawCoords : list Point.t
}.
(** [model.inputs[i]]; a present [shape] is [batch, height, width,
    channels], so that [shape[2]] exists. *)
Record Input : Type := mkInput {
  input_shape : option (number * number * number * number)
}.
Record t `{Tfjs} : Type := mk {
  modelUrl : option string;
  inputs : list Input;
  execute : Tensor -> Output
}.
Arguments mk {_} _ _ _.
End GraphModel.

(** [model['modelUrl']] is truthy *)
Definition has_url `{Tfjs} (m : GraphModel.t) : bool :=
  match GraphModel.modelUrl m with
  | Some u => negb (String.eqb u "")
  | None => false
  end.

(** The text logged for [model['modelUrl']] *)
Definition url_text `{Tfjs} (m : GraphModel.t) : option string :=
  GraphModel.modelUrl m.

(** [FaceResult], as far as [predict] fills it in.  An annotation lists
    [face.mesh[index]], which is [undefined] for an index past the mesh. *)
Module FaceResult.
Record t `{Tfjs} : Type := mk {
  id : number;
  mesh : list Point.t;
  meshRaw : list RawPoint.t;
  box : Box;
  boxRaw : Box;
  score : number;
  boxScore : number;
  faceScore : number;
  annotations : list (string * list (option Point.t));
  tensor : option Tensor
}.
Arguments mk {_} _ _ _ _ _ _ _ _ _ _.
End FaceResult.

(** One detection of blazeface and the answer of [blazeface.getBoxes]. *)
Module Blazeface.
Record Prediction `{Tfjs} : Type := mkPrediction {
  box_startPoint : Tensor;
  box_endPoint : Tensor;
  p_landmarks : Tensor;
  p_confidence : number
}.
Arguments mkPrediction {_} _ _ _ _.
Record Boxes `{Tfjs} (ScaleFactor : Type) : Type := mkBoxes {
  boxes : list Prediction;
  scaleFactor : ScaleFactor
}.
Arguments mkBoxes {_ _} _ _.
Arguments boxes {_ _} _.
Arguments scaleFactor {_ _} _.
End Blazeface.

(** What [tf.loadGraphModel] does: the promise is rejected, or it resolves
    to a model or to [null]. *)
Inductive Loaded `{Tfjs} : Type :=
  | Rejected
  | Resolved (m : option GraphModel.t).

(** The imports of [facemesh.ts]. *)
Class Imports `{Tfjs} : Type := {
  ScaleFactor : Type;
  Matrix : Type;
  (** blazeface *)
  getBoxes : Tensor -> Config.t -> Blazeface.Boxes ScaleFactor;
  blazeface_size : number;
  (** facemeshutil *)
  scaleBoxCoordinates : BoxCache -> ScaleFactor -> BoxCache;
  enlargeBox : BoxCache -> number -> BoxCache;
  squarifyBox : BoxCache -> BoxCache;
  calculateLandmarksBoundingBox : list Point.t -> BoxCache;
  correctFaceRotation : BoxCache -> Tensor -> number -> number * Matrix * Tensor;
  fixedRotationMatrix : Matrix;
  cutBoxFromImageAndResize : BoxCache -> Tensor -> number * number -> Tensor;
  getClampedBox : BoxCache -> Tensor -> Box;
  getRawBox : BoxCache -> Tensor -> Box;
  transformRawCoords :
    list Point.t -> BoxCache -> number -> Matrix -> number -> list Point.t;
  (** facemeshcoords: the keys in [Object.keys] order *)
  blazeFaceLandmarks : list (string * nat);
  meshAnnotations : list (string * list nat);
  (** iris *)
  augmentIris : list Point.t -> Tensor -> Config.t -> number -> list Point.t;
  (** util and tfjs *)
  join : string -> string -> string;
  loadGraphModel : string -> Loaded;
  (** [Math.sqrt] *)
  Math_sqrt : number -> number
}.

(** ** State and events *)

(** The module-level variables. *)
Record State `{Tfjs} : Type := mkState {
  boxCache : list BoxCache;
  model : option GraphModel.t;
  inputSize : number;
  skipped : number;
  lastTime : number
}.

Arguments mkState {_} _ _ _ _ _.

(** Their initial values. *)
Definition init `{Tfjs} : State :=
  mkState [] None 0 MAX_SAFE_INTEGER 0.

Definition enlargeFact : number := 1.6.

(** Calls to the outside, in the order they are made. *)
Inductive event : Type :=
  | EvGetBoxes                         (* blazeface.getBoxes(input, config) *)
  | EvCorrectFaceRotation              (* util.correctFaceRotation(...) *)
  | EvCutBox                           (* util.cutBoxFromImageAndResize(...) *)
  | EvExecute                          (* model.execute(face.tensor) *)
  | EvAugmentIris                      (* iris.augmentIris(...) *)
  | EvLoadGraphModel (path : string)   (* tf.loadGraphModel(path) *)
  | EvLog (msg : string) (arg : option string).   (* log(msg, arg) *)

Definition event_eqb (a b : event) : bool :=
  match a, b with
  | EvGetBoxes, EvGetBoxes => true
  | EvCorrectFaceRotation, EvCorrectFaceRotation => true
  | EvCutBox, EvCutBox => true
  | EvExecute, EvExecute => true
  | EvAugmentIris, EvAugmentIris => true
  | EvLoadGraphModel p, EvLoadGraphModel q => String.eqb p q
  | EvLog m x, EvLog n y =>
      String.eqb m n &&
      match x, y with
      | Some s, Some t => String.eqb s t
      | None, None => true
      | _, _ => false
      end
  | _, _ => false
  end.

(** How often an event occurs in a trace. *)
Definition occurrences (e : event) (tr : list event) : nat :=
  length (filter (fun a => event_eqb e a = true) tr).

(** ** predict *)

Section Predict.
Context `{Imports}.

(** Lines 32-34: the condition under which the detector is run.  The
    argument [now_] is the reading of [now()] on entry. *)
Definition refresh_due (config : Config.t) (now_ : number) (st : State) : bool :=
  let skipTime := js_gt (cfg_skipTime config) (now_ - lastTime st) in
  let skipFrame := js_lt (skipped st) (cfg_skipFrames config) in
  negb (Config.skipAllowed config) || negb skipTime || negb skipFrame
    || Nat.eqb (length (boxCache st)) 0.

(** Lines 39-45: the box pushed for one detection. *)
Definition cache_entry (sf : ScaleFactor) (possible : Blazeface.Prediction)
  : BoxCache :=
  let box :=
    mkBoxCache (data (Blazeface.box_startPoint possible))
               (data (Blazeface.box_endPoint possible))
               (array (Blazeface.p_landmarks possible))
               (Blazeface.p_confidence possible) in
  squarifyBox
    (enlargeBox (scaleBoxCoordinates box sf) (Math_sqrt enlargeFact)).

(** Lines 38-46: [for (const possible of possibleBoxes.boxes)
    boxCache.push(...)], from the cache as it stands. *)
Fixpoint push_boxes (sf : ScaleFactor) (ps : list Blazeface.Prediction)
    (cache : list BoxCache) : list BoxCache :=
  match ps with
  | [] => cache
  | possible :: rest => push_boxes sf rest (cache ++ [cache_entry sf possible])
  end.

(** Lines 32-51. *)
Definition detect (input : Tensor) (config : Config.t) (clock : Clock.t)
    (st : State) : State * list event :=
  if refresh_due config (Clock.entry clock) st then
    let possibleBoxes := getBoxes input config in
    (mkState
       (push_boxes (Blazeface.scaleFactor possibleBoxes)
                   (Blazeface.boxes possibleBoxes) [])
       (model st) (inputSize st) 0 (Clock.detected clock),
     [EvGetBoxes])
  else
    (mkState (boxCache st) (model st) (inputSize st) (skipped st + 1)
             (lastTime st),
     []).

(** Line 71: the test for rotation correction. *)
Definition use_rotation (config : Config.t) (env : Env.t) : bool :=
  cfg_rotation config && cfg_mesh_enabled config
    && includes (Env.kernels env) "rotatewithoffset".

(** Lines 71-76: [angle], [rotationMatrix] and [face.tensor]. *)
Definition crop (config : Config.t) (env : Env.t) (input : Tensor)
    (size : number) (box : BoxCache) : number * Matrix * Tensor * list event :=
  if use_rotation config env then
    (correctFaceRotation box input size, [EvCorrectFaceRotation])
  else
    ((0, fixedRotationMatrix,
      cutBoxFromImageAndResize box input
        (if cfg_mesh_enabled config then (size, size)
         else (blazeface_size, blazeface_size))),
     [EvCutBox]).

(** Lines 87 and 103: one point of [meshRaw]. *)
Definition raw_point (input : Tensor) (size : number) (pt : Point.t)
  : RawPoint.t :=
  RawPoint.mk (quotient (Point.x pt) (opt_or (shape input !! 2%nat) 0))
              (quotient (Point.y pt) (opt_or (shape input !! 1%nat) 0))
              (quotient (opt_or (Point.z pt) 0) size).

(** [Math.round(100 * c) / 100] *)
Definition round2 (c : number) : number := Math_round (100 * c) / 100.

(** Lines 83-86: the detector landmarks placed in the box. *)
Definition landmark_point (box : BoxCache) (pt : Point.t) : Point.t :=
  point2
    ((Point.x (startPoint box) + Point.x (endPoint box)) / 2
     + (Point.x (endPoint box) + Point.x (startPoint box)) * Point.x pt
       / blazeface_size)
    ((Point.y (startPoint box) + Point.y (endPoint box)) / 2
     + (Point.y (endPoint box) + Point.y (startPoint box)) * Point.y pt
       / blazeface_size).

Definition zero_box : Box := (0, 0, 0, 0).

(** What one pass through the loop body (lines 56-120) yields: the face
    pushed to [faces], the box pushed to [newCache] if any, the object
    [boxCache[i]] as the pass leaves it, and the calls made. *)
Record Step : Type := mkStep {
  face : FaceResult.t;
  kept : option BoxCache;
  cached : BoxCache;
  events : list event
}.

Definition not_loaded_msg : string :=
  "face mesh detection requested, but model is not loaded".

(** Lines 56-120 for [box = boxCache[i]] and the current value of [id]. *)
Definition body (config : Config.t) (env : Env.t) (input : Tensor)
    (mdl : option GraphModel.t) (size : number) (id : number)
    (box : BoxCache) : Step :=
  let '(angle, rotationMatrix, tensor, ev) := crop config env input size box in
  let boxScore := round2 (confidence box) in
  if negb (cfg_mesh_enabled config) then
    let boxScore' := Math_round (num_or (100 * confidence box) 0) / 100 in
    let mesh := map (landmark_point box) (landmarks box) in
    mkStep
      (FaceResult.mk id mesh (map (raw_point input size) mesh)
         (getClampedBox box input) (getRawBox box input)
         boxScore' boxScore' 0
         (map (fun kv => (fst kv, [mesh !! snd kv])) blazeFaceLandmarks)
         (Some tensor))
      None box ev
  else
    match mdl with
    | None =>
        mkStep
          (FaceResult.mk id [] [] zero_box zero_box 0 boxScore 0 []
             (Some tensor))
          None box
          (ev ++ if Config.debug config then [EvLog not_loaded_msg None] else [])
    | Some m =>
        let out := GraphModel.execute m tensor in
        let faceScore := round2 (GraphModel.faceConfidence out) in
        if js_lt faceScore (cfg_minConfidence config) then
          mkStep
            (FaceResult.mk id [] [] zero_box zero_box 0 boxScore faceScore []
               (Some tensor))
            None (set_confidence box faceScore) (ev ++ [EvExecute])
        else
          let rawCoords :=
            if cfg_iris_enabled config
            then augmentIris (GraphModel.rawCoords out) tensor config size
            else GraphModel.rawCoords out in
          let mesh :=
            transformRawCoords rawCoords box angle rotationMatrix size in
          let box' :=
            squarifyBox
              (enlargeBox (calculateLandmarksBoundingBox mesh) enlargeFact) in
          mkStep
            (FaceResult.mk id mesh (map (raw_point input size) mesh)
               (getClampedBox box' input) (getRawBox box' input)
               faceScore boxScore faceScore
               (map (fun kv => (fst kv, map (fun index => mesh !! index) (snd kv)))
                    meshAnnotations)
               (Some tensor))
            (Some box') box
            (ev ++ [EvExecute]
                ++ if cfg_iris_enabled config then [EvAugmentIris] else [])
    end.

(** The variables of the loop of lines 52-121; [cache] is the array
    [boxCache] that the loop walks and whose objects it may write to. *)
Record Loop : Type := mkLoop {
  cache : list BoxCache;
  faces : list FaceResult.t;
  newCache : list BoxCache;
  next_id : number;
  trace : list event
}.

(** One iteration, for index [i]. *)
Definition iteration (config : Config.t) (env : Env.t) (input : Tensor)
    (mdl : option GraphModel.t) (size : number) (i : nat) (l : Loop) : Loop :=
  match cache l !! i with
  | None => l
  | Some box =>
      let s := body config env input mdl size (next_id l) box in
      mkLoop (<[i := cached s]> (cache l))
             (faces l ++ [face s])
             (match kept s with
              | Some b => newCache l ++ [b]
              | None => newCache l
              end)
             (next_id l + 1)
             (trace l ++ events s)
  end.

(** [n] iterations from index [i] on. *)
Fixpoint loop_from (config : Config.t) (env : Env.t) (input : Tensor)
    (mdl : option GraphModel.t) (size : number) (n i : nat) (l : Loop) : Loop :=
  match n with
  | O => l
  | S n' =>
      loop_from config env input mdl size n' (S i)
        (iteration config env input mdl size i l)
  end.

(** Lines 52-121.  The array keeps its length, so the test
    [i < boxCache.length] fails after exactly that many iterations. *)
Definition run_loop (config : Config.t) (env : Env.t) (input : Tensor)
    (mdl : option GraphModel.t) (size : number) (boxes : list BoxCache) : Loop :=
  loop_from config env input mdl size (length boxes) 0
    (mkLoop boxes [] [] 0 []).

(** [predict(input, config)]: the faces returned, the module variables
    afterwards and the calls made. *)
Definition predict (input : Tensor) (config : Config.t) (env : Env.t)
    (clock : Clock.t) (st : State) : list FaceResult.t * State * list event :=
  let '(st1, ev1) := detect input config clock st in
  let l := run_loop config env input (model st1) (inputSize st1) (boxCache st1) in
  (faces l,
   mkState (newCache l) (model st1) (inputSize st1) (skipped st1) (lastTime st1),
   ev1 ++ trace l).
End Predict.

(** ** load *)

(** How a call ends: with a value, or with an exception. *)
Inductive error : Type :=
  | LoadRejected        (* the promise of tf.loadGraphModel is rejected *)
  | TypeError.          (* a property of null or undefined is read *)

Inductive outcome (A : Type) : Type :=
  | Returned (a : A)
  | Thrown (e : error).
Arguments Returned {A} a.
Arguments Thrown {A} e.

Section LoadModel.
Context `{Imports}.

(** Lines 133-135, with [model] as assigned before. *)
Definition set_inputSize (m : option GraphModel.t) (st : State)
    (ev : list event) : outcome GraphModel.t * State * list event :=
  match m with
  | None =>
      (Thrown TypeError,
       mkState (boxCache st) None (inputSize st) (skipped st) (lastTime st),
       ev)
  | Some g =>
      match GraphModel.inputs g with
      | [] =>
          (Thrown TypeError,
           mkState (boxCache st) (Some g) (inputSize st) (skipped st)
                   (lastTime st),
           ev)
      | first :: _ =>
          let size :=
            match GraphModel.input_shape first with
            | Some (_, _, width, _) => width
            | None => 0
            end in
          let size := if Qeq_bool size (-1) then 64 else size in
          (Returned g,
           mkState (boxCache st) (Some g) size (skipped st) (lastTime st),
           ev)
      end
  end.

(** [load(config)] *)
Definition load (config : Config.t) (env : Env.t) (st : State)
    : outcome GraphModel.t * State * list event :=
  let current := if Env.initial env then None else model st in
  match current with
  | None =>
      let path :=
        join (Config.modelBasePath config) (str_or (cfg_modelPath config) "") in
      match loadGraphModel path with
      | Rejected =>
          (Thrown LoadRejected,
           mkState (boxCache st) None (inputSize st) (skipped st) (lastTime st),
           [EvLoadGraphModel path])
      | Resolved m =>
          let logged :=
            match m with
            | None => [EvLog "load model failed:" (cfg_modelPath config)]
            | Some g =>
                if has_url g then
                  if Config.debug config
                  then [EvLog "load model:" (url_text g)] else []
                else [EvLog "load model failed:" (cfg_modelPath config)]
            end in
          set_inputSize m st (EvLoadGraphModel path :: logged)
      end
  | Some g =>
      set_inputSize (Some g) st
        (if Config.debug config then [EvLog "cached model:" (url_text g)] else [])
  end.
End LoadModel.

(** ** Histories of calls *)

Section Histories.
Context `{Imports}.

(** A call made by the client of the module. *)
Inductive call : Type :=
  | CallPredict (input : Tensor) (config : Config.t) (env : Env.t)
                (clock : Clock.t)
  | CallLoad (config : Config.t) (env : Env.t).

(** The detector was invoked during a call. *)
Definition detector_ran (tr : list event) : bool :=
  existsb (event_eqb EvGetBoxes) tr.

Definition step (st : State) (c : call) : State :=
  match c with
  | CallPredict input config env clock =>
      snd (fst (predict input config env clock st))
  | CallLoad config env => snd (fst (load config env st))
  end.

(** The module variables after a history of calls, oldest first. *)
Definition run (cs : list call) (st : State) : State := fold_left step cs st.

(** The states the module can be in. *)
Inductive reachable : State -> Prop :=
  | reach_init : reachable init
  | reach_step st c : reachable st -> reachable (step st c).

(** The number of calls of [predict] at the end of a history that went
    without the detector, [n] being that number before the history. *)
Fixpoint reuses (cs : list call) (st : State) (n : nat) : nat :=
  match cs with
  | [] => n
  | c :: rest =>
      reuses rest (step st c)
        match c with
        | CallPredict input config env clock =>
            if detector_ran (snd (predict input config env clock st))
            then O else S n
        | CallLoad _ _ => n
        end
  end.

(** The value of [id] after [n] further boxes. *)
Fixpoint count_up (n : nat) (id : number) : number :=
  match n with
  | O => id
  | S n' => count_up n' (id + 1)
  end.

(** The loop of [predict], box by box: the value of [id] goes up by one
    with every box. *)
Fixpoint steps (config : Config.t) (env : Env.t) (input : Tensor)
    (mdl : option GraphModel.t) (size : number) (id : number)
    (boxes : list BoxCache) : list Step :=
  match boxes with
  | [] => []
  | box :: rest =>
      body config env input mdl size id box
        :: steps config env input mdl size (id + 1) rest
  end.

(** The cache that the loop of a call walks: the detector's boxes after a
    refresh, the stored cache otherwise. *)
Definition processed (input : Tensor) (config : Config.t) (clock : Clock.t)
    (st : State) : list BoxCache :=
  boxCache (fst (detect input config clock st)).

(** While there is a cache, [skipped] is the number of calls of [predict]
    since the detector last ran. *)
Definition counts (st : State) (n : nat) : Prop :=
  boxCache st <> [] -> skipped st == inject_Z (Z.of_nat n).

(** [model] is not [null]. *)
Definition is_loaded (mdl : option GraphModel.t) : bool :=
  match mdl with Some _ => true | None => false end.

(** The mesh of a pass was computed and accepted: the mesh stage is
    enabled, the model is loaded and the face score is not below the
    threshold of line 98. *)
Definition passed (config : Config.t) (mdl : option GraphModel.t) (s : Step)
  : bool :=
  cfg_mesh_enabled config && is_loaded mdl
    && negb (js_lt (FaceResult.faceScore (face s)) (cfg_minConfidence config)).


(** The box re-derived from a mesh (line 105). *)
Definition mesh_box (mesh : list Point.t) : BoxCache :=
  squarifyBox (enlargeBox (calculateLandmarksBoundingBox mesh) enlargeFact).
End Histories.

(** ** A small concrete instance

    One implementation of the imports, used to run the definitions: frames
    of 640 by 480, a detector that finds one face, and two mesh models, one
    sure of its face and one not. *)
Module Demo.
Definition tfjs : Tfjs :=
  {| Tensor := unit;
     shape := fun _ => [1; 480; 640; 3];
     data := fun _ => point2 10 20;
     array := fun _ => [point2 (1 # 2) (1 # 4)] |}.

Definition halve (p : Point.t) : Point.t :=
  Point.mk (Point.x p / 2) (Point.y p / 2) (Point.z p).

Definition outputs (c : number) : GraphModel.Output :=
  GraphModel.mkOutput c [point3 64 32 8; point3 128 96 0].

(** A mesh model that is sure of the face, and one that is not. *)
Definition sure : @GraphModel.t tfjs :=
  GraphModel.mk (Some "file://facemesh.json"%string)
    [GraphModel.mkInput (Some (1, 192, 192, 3))] (fun _ => outputs 0.987).

Definition unsure : @GraphModel.t tfjs :=
  GraphModel.mk (Some "file://facemesh.json"%string)
    [GraphModel.mkInput (Some (1, 192, 192, 3))] (fun _ => outputs 0.104).

(** The imports, [fetched] being what [tf.loadGraphModel] answers. *)
Definition imports (fetched : @Loaded tfjs) : @Imports tfjs :=
  {| ScaleFactor := number;
     Matrix := list (list number);
     getBoxes := fun _ _ =>
       Blazeface.mkBoxes [@Blazeface.mkPrediction tfjs tt tt tt 0.9] 2;
     blazeface_size := 128;
     scaleBoxCoordinates := fun b sf =>
       mkBoxCache (Point.mk (Point.x (startPoint b) * sf)
                            (Point.y (startPoint b) * sf) None)
                  (Point.mk (Point.x (endPoint b) * sf)
                            (Point.y (endPoint b) * sf) None)
                  (landmarks b) (confidence b);
     enlargeBox := fun b f =>
       mkBoxCache (startPoint b)
                  (Point.mk (Point.x (endPoint b) * f)
                            (Point.y (endPoint b) * f) None)
                  (landmarks b) (confidence b);
     squarifyBox := fun b => b;
     calculateLandmarksBoundingBox := fun pts =>
       mkBoxCache (hd (point2 0 0) pts) (default (point2 0 0) (last pts)) pts 1;
     correctFaceRotation := fun _ _ _ => (1 # 10, [[1; 0]; [0; 1]], tt);
     fixedRotationMatrix := [[1; 0]; [0; 1]];
     cutBoxFromImageAndResize := fun _ _ _ => tt;
     getClampedBox := fun b _ =>
       (Point.x (startPoint b), Point.y (startPoint b),
        Point.x (endPoint b), Point.y (endPoint b));
     getRawBox := fun b _ =>
       (Point.x (startPoint b) / 640, Point.y (startPoint b) / 480,
        Point.x (endPoint b) / 640, Point.y (endPoint b) / 480);
     transformRawCoords := fun pts _ _ _ _ => map halve pts;
     blazeFaceLandmarks := [("leftEye"%string, 0%nat); ("rightEye"%string, 1%nat)];
     meshAnnotations := [("silhouette"%string, [0%nat; 1%nat])];
     augmentIris := fun pts _ _ _ => pts;
     join := fun a b => (a ++ b)%string;
     loadGraphModel := fun _ => fetched;
     Math_sqrt := fun _ => 1.25 |}.

Definition detector (frames : number) : Config.FaceDetector :=
  Config.mkDetector (Some false) (Some 2500) (Some frames) (Some 0.2).

(** Mesh enabled, skipping allowed for up to [frames] frames. *)
Definition config (frames : number) : Config.t :=
  Config.mk true true "models/"
    (Config.mkFace (Some (detector frames))
       (Some (Config.mkMesh (Some true) (Some "facemesh.json"%string)))
       (Some (Config.mkIris (Some false)))).


(** A model object that came back without a [modelUrl]. *)
Definition nameless : @GraphModel.t tfjs :=
  GraphModel.mk None [GraphModel.mkInput (Some (1, 192, 192, 3))]
    (fun _ => outputs 0.987).

(** The same with the mesh stage switched off. *)
Definition detector_only : Config.t :=
  Config.mk true false "models/"
    (Config.mkFace (Some (detector 1))
       (Some (Config.mkMesh (Some false) None)) None).

Definition env : Env.t := Env.mk ["rotatewithoffset"%string] false.

(** Frames every 40 milliseconds; the detector takes 15. *)
Definition clock (frame : Z) : Clock.t :=
  Clock.mk (inject_Z (40 * frame)) (inject_Z (40 * frame + 15)).

(** The module variables once [m] is loaded. *)
Definition loaded (m : @GraphModel.t tfjs) : @State tfjs :=
  mkState [] (Some m) 192 MAX_SAFE_INTEGER 0.

Definition frame (n : Z) (c : Config.t) : @call tfjs :=
  @CallPredict tfjs tt c env (clock n).

Definition box : BoxCache :=
  mkBoxCache (point2 100 120) (point2 300 320) [point2 (1 # 2) (1 # 4)] 0.9.
End Demo.

(** ** Further scenes on the concrete instance *)
Module Scenes.
(** A detector that finds no face. *)
Definition blind : @Imports Demo.tfjs :=
  let I := Demo.imports Rejected in
  {| ScaleFactor := number;
     Matrix := list (list number);
     getBoxes := fun _ _ => Blazeface.mkBoxes [] 2;
     blazeface_size := 128;
     scaleBoxCoordinates := @scaleBoxCoordinates Demo.tfjs I;
     enlargeBox := @enlargeBox Demo.tfjs I;
     squarifyBox := @squarifyBox Demo.tfjs I;
     calculateLandmarksBoundingBox := @calculateLandmarksBoundingBox Demo.tfjs I;
     correctFaceRotation := @correctFaceRotation Demo.tfjs I;
     fixedRotationMatrix := @fixedRotationMatrix Demo.tfjs I;
     cutBoxFromImageAndResize := @cutBoxFromImageAndResize Demo.tfjs I;
     getClampedBox := @getClampedBox Demo.tfjs I;
     getRawBox := @getRawBox Demo.tfjs I;
     transformRawCoords := @transformRawCoords Demo.tfjs I;
     blazeFaceLandmarks := @blazeFaceLandmarks Demo.tfjs I;
     meshAnnotations := @meshAnnotations Demo.tfjs I;
     augmentIris := @augmentIris Demo.tfjs I;
     join := @join Demo.tfjs I;
     loadGraphModel := fun _ => Rejected;
     Math_sqrt := @Math_sqrt Demo.tfjs I |}.

(** Mesh and iris enabled, with [minConfidence] given as [threshold]. *)
Definition config (threshold : option number) : Config.t :=
  Config.mk true false "models/"
    (Config.mkFace
       (Some (Config.mkDetector (Some false) (Some 2500) None threshold))
       (Some (Config.mkMesh (Some true) (Some "facemesh.json"%string)))
       (Some (Config.mkIris (Some true)))).

(** The environment right after a change of backend: [env.initial] set. *)
Definition restarted : Env.t := Env.mk ["rotatewithoffset"%string] true.

(** A model object without input signature. *)
Definition hollow : @GraphModel.t Demo.tfjs :=
  GraphModel.mk (Some "file://facemesh.json"%string) [] (fun _ => Demo.outputs 1).

(** A model whose input width is left open, written -1. *)
Definition open_width : @GraphModel.t Demo.tfjs :=
  GraphModel.mk (Some "file://facemesh.json"%string)
    [GraphModel.mkInput (Some (1, -1, -1, 3))] (fun _ => Demo.outputs 1).
End Scenes.

(** ** Notions used in the properties of [load] and of the trace *)

(** The path that [load] asks the loader for. *)
Definition model_path `{Imports} (config : Config.t) : string :=
  join (Config.modelBasePath config) (str_or (cfg_modelPath config) "").

(** The model that [load] starts from: the stored one, unless [env.initial]
    is set. *)
Definition stored_model `{Tfjs} (env : Env.t) (st : State)
  : option GraphModel.t :=
  if Env.initial env then None else model st.

(** No call of [predict] in a history from [st] runs the detector. *)
Fixpoint undetected `{Imports} (cs : list call) (st : State) : bool :=
  match cs with
  | [] => true
  | c :: rest =>
      match c with
      | CallPredict input config env clock =>
          negb (detector_ran (snd (predict input config env clock st)))
      | CallLoad _ _ => true
      end
      && undetected rest (step st c)
  end.

(** An event is a call of [log]. *)
Definition is_log (e : event) : bool :=
  match e with EvLog _ _ => true | _ => false end.

(** * Properties *)

(** ** Numbers *)

Lemma js_gt_false (a b : number) : js_gt a b = false <-> a <= b.
Proof.
  unfold js_gt. rewrite Qle_alt.
  destruct (a ?= b); split; intros; congruence.
Qed.

Lemma js_lt_false (a b : number) : js_lt a b = false <-> b <= a.
Proof.
  unfold js_lt. rewrite Qge_alt.
  destruct (a ?= b); split; intros; congruence.
Qed.

Lemma js_lt_true (a b : number) : js_lt a b = true <-> a < b.
Proof.
  unfold js_lt. rewrite Qlt_alt.
  destruct (a ?= b); split; intros; congruence.
Qed.

Lemma num_or_zero (x : number) : num_or x 0 == x.
Proof.
  unfold num_or, truthy.
  destruct (Qeq_bool x 0) eqn:E; simpl; [|reflexivity].
  apply Qeq_bool_iff in E. symmetry. exact E.
Qed.

Lemma opt_or_zero (x : option number) : opt_or x 0 == default 0 x.
Proof. destruct x as [v|]; simpl; [apply num_or_zero | reflexivity]. Qed.

(** Below a given threshold is below the threshold in force: a missing or
    zero [minConfidence] is replaced by 1. *)
Lemma below_threshold (s mc : number) : s < mc -> s < num_or mc 1.
Proof.
  intros Hs. unfold num_or, truthy.
  destruct (Qeq_bool mc 0) eqn:E; simpl; [|exact Hs].
  apply Qeq_bool_iff in E. lra.
Qed.

Lemma Math_round_comp (a b : number) : a == b -> Math_round a = Math_round b.
Proof.
  intros E. unfold Math_round. f_equal. apply Qfloor_comp. rewrite E. reflexivity.
Qed.

Lemma count_up_succ (n : nat) (q : number) : count_up (S n) q = count_up n q + 1.
Proof.
  revert q. induction n as [|n IH]; intros q; [reflexivity|].
  change (count_up (S (S n)) q) with (count_up (S n) (q + 1)).
  rewrite IH. reflexivity.
Qed.

Lemma count_up_value (n : nat) : count_up n 0 == inject_Z (Z.of_nat n).
Proof.
  induction n as [|n IH]; [reflexivity|].
  rewrite count_up_succ, IH, Nat2Z.inj_succ. unfold Z.succ.
  rewrite inject_Z_plus. reflexivity.
Qed.

(** ** The detector pass and the loop *)

Section LoopFacts.
Context `{Imports}.
Variables (config : Config.t) (env : Env.t) (input : Tensor).
Variables (mdl : option GraphModel.t) (size : number).

Lemma push_boxes_app (sf : ScaleFactor) (ps : list Blazeface.Prediction) :
  forall acc, push_boxes sf ps acc = acc ++ map (cache_entry sf) ps.
Proof.
  induction ps as [|p ps IH]; intros acc; simpl.
  - symmetry. apply app_nil_r.
  - rewrite IH, <- app_assoc. reflexivity.
Qed.

Lemma push_boxes_map (sf : ScaleFactor) (ps : list Blazeface.Prediction) :
  push_boxes sf ps [] = map (cache_entry sf) ps.
Proof. apply push_boxes_app. Qed.

Lemma steps_length (boxes : list BoxCache) :
  forall id, length (steps config env input mdl size id boxes) = length boxes.
Proof.
  induction boxes as [|b bs IH]; intros id; simpl; [reflexivity|].
  rewrite IH. reflexivity.
Qed.

Lemma steps_lookup (boxes : list BoxCache) :
  forall (i : nat) (id : number),
    steps config env input mdl size id boxes !! i
    = body config env input mdl size (count_up i id) <$> (boxes !! i).
Proof.
  induction boxes as [|b bs IH]; intros i id; [reflexivity|].
  destruct i as [|i]; [reflexivity|]. simpl. apply IH.
Qed.

(** The loop started in the middle: [seen] are the objects already
    visited, [todo] the ones to come. *)
Lemma loop_from_steps (todo : list BoxCache) :
  forall (seen : list BoxCache) (l : Loop),
    cache l = seen ++ todo ->
    loop_from config env input mdl size (length todo) (length seen) l
    = let ss := steps config env input mdl size (next_id l) todo in
      mkLoop (seen ++ map cached ss)
             (faces l ++ map face ss)
             (newCache l ++ omap kept ss)
             (count_up (length todo) (next_id l))
             (trace l ++ concat (map events ss)).
Proof.
  induction todo as [|b rest IH]; intros seen l Hc; simpl.
  - rewrite !app_nil_r. rewrite app_nil_r in Hc. rewrite <- Hc.
    destruct l; reflexivity.
  - unfold iteration at 1. rewrite Hc, list_lookup_middle by reflexivity.
    set (s := body config env input mdl size (next_id l) b).
    assert (Hins : <[length seen := cached s]> (seen ++ b :: rest)
                   = (seen ++ [cached s]) ++ rest).
    { rewrite insert_app_r_alt by lia. rewrite Nat.sub_diag.
      simpl. rewrite <- app_assoc. reflexivity. }
    rewrite Hins.
    replace (S (length seen)) with (length (seen ++ [cached s]))
      by (rewrite length_app; simpl; lia).
    rewrite IH by reflexivity. simpl.
    rewrite <- !app_assoc. simpl.
    destruct (kept s) as [k|]; simpl; rewrite <- ?app_assoc; reflexivity.
Qed.

(** The whole loop, box by box. *)
Lemma run_loop_steps (boxes : list BoxCache) :
  run_loop config env input mdl size boxes
  = let ss := steps config env input mdl size 0 boxes in
    mkLoop (map cached ss) (map face ss) (omap kept ss)
           (count_up (length boxes) 0) (concat (map events ss)).
Proof.
  unfold run_loop.
  apply (loop_from_steps boxes [] (mkLoop boxes [] [] 0 [])). reflexivity.
Qed.
End LoopFacts.

(** ** One pass through the loop body *)

(** Case analysis following the branches of [body]: mesh disabled, model
    not loaded, confidence too low, mesh computed. *)
Ltac body_cases mdl :=
  unfold body;
  destruct (crop _ _ _ _ _) as [[[angle rotationMatrix] tensor] ev] eqn:Hcrop;
  destruct (cfg_mesh_enabled _) eqn:Hmesh; simpl;
  [ destruct mdl as [m|]; simpl;
    [ destruct (js_lt _ _) eqn:Hlow; simpl | ]
  | ].

Section BodyFacts.
Context `{Imports}.
Variables (config : Config.t) (env : Env.t) (input : Tensor).
Variables (mdl : option GraphModel.t) (size : number).

Lemma crop_events (box : BoxCache) :
  snd (crop config env input size box)
  = if use_rotation config env then [EvCorrectFaceRotation] else [EvCutBox].
Proof. unfold crop. destruct (use_rotation config env); reflexivity. Qed.

Lemma body_id (id : number) (box : BoxCache) :
  FaceResult.id (face (body config env input mdl size id box)) = id.
Proof. body_cases mdl; reflexivity. Qed.

Lemma body_boxScore (id : number) (box : BoxCache) :
  FaceResult.boxScore (face (body config env input mdl size id box))
  == round2 (confidence box).
Proof.
  body_cases mdl; try reflexivity.
  unfold round2. rewrite (Math_round_comp _ _ (num_or_zero _)). reflexivity.
Qed.

Lemma body_meshRaw (id : number) (box : BoxCache) :
  let f := face (body config env input mdl size id box) in
  FaceResult.meshRaw f = map (raw_point input size) (FaceResult.mesh f).
Proof. body_cases mdl; reflexivity. Qed.


(** Which box, if any, a pass hands to the next cache. *)
Lemma body_kept (id : number) (box : BoxCache) :
  let s := body config env input mdl size id box in
  kept s
  = if passed config mdl s
    then Some (mesh_box (FaceResult.mesh (face s)))
    else None.
Proof.
  body_cases mdl; unfold passed; simpl; rewrite ?Hmesh, ?Hlow; reflexivity.
Qed.

(** The object [boxCache[i]] is written to only when the confidence of
    the mesh is too low. *)
Lemma body_cached (id : number) (box : BoxCache) :
  let s := body config env input mdl size id box in
  cached s
  = if cfg_mesh_enabled config && is_loaded mdl
       && js_lt (FaceResult.faceScore (face s)) (cfg_minConfidence config)
    then set_confidence box (FaceResult.faceScore (face s))
    else box.
Proof.
  body_cases mdl; rewrite ?Hlow; reflexivity.
Qed.

(** The events of a pass: the crop, then the mesh model or the log. *)
Lemma body_events (id : number) (box : BoxCache) :
  let s := body config env input mdl size id box in
  events s
  = (if use_rotation config env then [EvCorrectFaceRotation] else [EvCutBox])
    ++ if cfg_mesh_enabled config then
         match mdl with
         | None =>
             if Config.debug config then [EvLog not_loaded_msg None] else []
         | Some _ =>
             EvExecute ::
             if negb (js_lt (FaceResult.faceScore (face s))
                            (cfg_minConfidence config))
                && cfg_iris_enabled config
             then [EvAugmentIris] else []
         end
       else [].
Proof.
  pose proof (crop_events box) as Hev.
  body_cases mdl; simpl in Hev; subst ev;
    rewrite ?Hlow; simpl; rewrite ?app_nil_r;
    try destruct (cfg_iris_enabled config); reflexivity.
Qed.
End BodyFacts.

(** ** A call of predict *)

Section PredictFacts.
Context `{Imports}.
Variables (input : Tensor) (config : Config.t) (env : Env.t) (clock : Clock.t).

Lemma detect_model (st : State) :
  model (fst (detect input config clock st)) = model st
  /\ inputSize (fst (detect input config clock st)) = inputSize st.
Proof. unfold detect. destruct (refresh_due _ _ _); split; reflexivity. Qed.

Lemma detect_events (st : State) :
  snd (detect input config clock st)
  = if refresh_due config (Clock.entry clock) st then [EvGetBoxes] else [].
Proof. unfold detect. destruct (refresh_due _ _ _); reflexivity. Qed.

(** [predict] as the detector pass followed by the loop, box by box. *)
Lemma predict_steps (st : State) :
  predict input config env clock st
  = let st1 := fst (detect input config clock st) in
    let ss := steps config env input (model st) (inputSize st) 0
                    (processed input config clock st) in
    (map face ss,
     mkState (omap kept ss) (model st) (inputSize st) (skipped st1)
             (lastTime st1),
     snd (detect input config clock st) ++ concat (map events ss)).
Proof.
  unfold predict, processed.
  destruct (detect_model st) as [Hm Hs].
  destruct (detect input config clock st) as [st1 ev1]. simpl in *.
  rewrite run_loop_steps, Hm, Hs. reflexivity.
Qed.

Lemma steps_no_detector (mdl : option GraphModel.t) (size : number)
    (boxes : list BoxCache) :
  forall id,
    detector_ran (concat (map events (steps config env input mdl size id boxes)))
    = false.
Proof.
  unfold detector_ran.
  induction boxes as [|b bs IH]; intros id; simpl; [reflexivity|].
  rewrite existsb_app, IH, orb_false_r, body_events.
  destruct (use_rotation config env), (cfg_mesh_enabled config); simpl;
    try reflexivity;
    destruct mdl; simpl;
    repeat match goal with |- context [if ?b then _ else _] => destruct b end;
    reflexivity.
Qed.

(** The detector is invoked exactly when [refresh_due] says so. *)
Lemma predict_detector_ran (st : State) :
  detector_ran (snd (predict input config env clock st))
  = refresh_due config (Clock.entry clock) st.
Proof.
  rewrite predict_steps. simpl. unfold detector_ran.
  rewrite existsb_app. fold (detector_ran (concat (map events
    (steps config env input (model st) (inputSize st) 0
           (processed input config clock st))))).
  rewrite steps_no_detector, orb_false_r, detect_events.
  destruct (refresh_due _ _ _); reflexivity.
Qed.

(** [refresh_due] in words. *)
Lemma refresh_due_iff (st : State) (now_ : number) :
  refresh_due config now_ st = true
  <-> Config.skipAllowed config = false
      \/ cfg_skipTime config <= now_ - lastTime st
      \/ cfg_skipFrames config <= skipped st
      \/ boxCache st = [].
Proof.
  unfold refresh_due.
  rewrite !orb_true_iff, !negb_true_iff, js_gt_false, js_lt_false, Nat.eqb_eq.
  rewrite length_zero_iff_nil. tauto.
Qed.
End PredictFacts.

(** C1.  A call of [predict] invokes the blazeface detector if and only if
    [config.skipAllowed] is false, or the time since the last detector run
    is at least [skipTime], or the counter of skipped frames is at least
    [skipFrames], or the cache is empty.  When it does, the cache that the
    call works on is rebuilt from the detector's boxes and the counter is
    set to 0; when it does not, the stored cache is used and the counter
    goes up by 1.  The faces returned are those of that cache. *)
Theorem predict_refresh_iff `{Imports} (input : Tensor) (config : Config.t)
    (env : Env.t) (clock : Clock.t) (st : State) :
  let r := predict input config env clock st in
  let found := getBoxes input config in
  (detector_ran (snd r) = true
   <-> Config.skipAllowed config = false
       \/ cfg_skipTime config <= Clock.entry clock - lastTime st
       \/ cfg_skipFrames config <= skipped st
       \/ boxCache st = [])
  /\ (if detector_ran (snd r)
      then skipped (snd (fst r)) = 0
           /\ lastTime (snd (fst r)) = Clock.detected clock
           /\ processed input config clock st
              = map (cache_entry (Blazeface.scaleFactor found))
                    (Blazeface.boxes found)
      else skipped (snd (fst r)) = skipped st + 1
           /\ lastTime (snd (fst r)) = lastTime st
           /\ processed input config clock st = boxCache st)
  /\ fst (fst r)
     = map face (steps config env input (model st) (inputSize st) 0
                       (processed input config clock st)).
Proof.
  intros r found. subst r.
  rewrite predict_detector_ran, refresh_due_iff.
  split; [reflexivity|].
  rewrite predict_steps. simpl. unfold processed, detect.
  destruct (refresh_due config (Clock.entry clock) st); simpl;
    rewrite ?push_boxes_map; auto.
Qed.

(** ** The faces returned *)

Section FaceFacts.
Context `{Imports}.
Variables (input : Tensor) (config : Config.t) (env : Env.t) (clock : Clock.t).

Lemma steps_in (mdl : option GraphModel.t) (size : number) (boxes : list BoxCache) :
  forall (id : number) (s : Step),
    In s (steps config env input mdl size id boxes) ->
    exists (id' : number) (box : BoxCache),
      In box boxes /\ s = body config env input mdl size id' box.
Proof.
  induction boxes as [|b bs IH]; intros id s Hin; simpl in Hin; [tauto|].
  destruct Hin as [<- | Hin].
  - exists id, b. split; [left; reflexivity | reflexivity].
  - destruct (IH _ _ Hin) as (id' & box & Hb & ->).
    exists id', box. split; [right; exact Hb | reflexivity].
Qed.

Lemma predict_face_in (st : State) (f : FaceResult.t) :
  In f (fst (fst (predict input config env clock st))) ->
  exists (id : number) (box : BoxCache),
    In box (processed input config clock st)
    /\ f = face (body config env input (model st) (inputSize st) id box).
Proof.
  rewrite predict_steps. simpl. rewrite in_map_iff.
  intros (s & <- & Hs). apply steps_in in Hs as (id & box & Hb & ->).
  exists id, box. split; [exact Hb | reflexivity].
Qed.

(** A quotient is the division when the divisor is not zero, and no
    number when it is; dividend and divisor are taken up to equality of
    rationals. *)
Lemma quotient_spec (a a' b b' : number) :
  a' == a -> b' == b ->
  (b == 0 -> quotient a' b' = None)
  /\ (~ b == 0 -> exists q, quotient a' b' = Some q /\ q == a / b).
Proof.
  intros Ha Hb. unfold quotient.
  destruct (Qeq_bool b' 0) eqn:E.
  - apply Qeq_bool_iff in E. split; [reflexivity|].
    intros Hnz. exfalso. apply Hnz. rewrite <- Hb. exact E.
  - apply Qeq_bool_neq in E. split.
    + intros Hz. exfalso. apply E. rewrite Hb. exact Hz.
    + intros _. eexists. split; [reflexivity|]. rewrite Ha, Hb. reflexivity.
Qed.

Lemma raw_point_coordinates (size w h : number) (pt : Point.t) :
  shape input !! 2%nat = Some w ->
  shape input !! 1%nat = Some h ->
  let raw := raw_point input size pt in
  ((w == 0 -> RawPoint.x raw = None)
   /\ (~ w == 0 -> exists q, RawPoint.x raw = Some q /\ q == Point.x pt / w))
  /\ ((h == 0 -> RawPoint.y raw = None)
      /\ (~ h == 0 ->
          exists q, RawPoint.y raw = Some q /\ q == Point.y pt / h))
  /\ ((size == 0 -> RawPoint.z raw = None)
      /\ (~ size == 0 ->
          exists q, RawPoint.z raw = Some q
                    /\ q == default 0 (Point.z pt) / size)).
Proof.
  intros Hw Hh. unfold raw_point. rewrite Hw, Hh. simpl.
  split; [|split]; apply quotient_spec;
    try reflexivity; try apply num_or_zero; apply opt_or_zero.
Qed.
End FaceFacts.

(** C10.  A call of [predict] returns one face per box of the cache it
    works on, in the order of the cache: the face at index [i] belongs to
    the box at index [i], its [id] is [i] and its [boxScore] is
    [Math.round(100 * confidence) / 100] for the confidence of that box;
    past the end of the cache there is no face. *)
Theorem predict_face_per_box `{Imports} (input : Tensor) (config : Config.t)
    (env : Env.t) (clock : Clock.t) (st : State) (i : nat) :
  let returned := fst (fst (predict input config env clock st)) in
  let boxes := processed input config clock st in
  length returned = length boxes
  /\ match boxes !! i with
     | Some box =>
         exists f,
           returned !! i = Some f
           /\ f = face (body config env input (model st) (inputSize st)
                             (count_up i 0) box)
           /\ FaceResult.id f == inject_Z (Z.of_nat i)
           /\ FaceResult.boxScore f
              == Math_round (100 * confidence box) / 100
     | None => returned !! i = None
     end.
Proof.
  intros returned boxes. subst returned.
  rewrite predict_steps. simpl. fold boxes.
  split; [rewrite length_map; apply steps_length|].
  rewrite list_lookup_fmap, steps_lookup.
  destruct (boxes !! i) as [box|]; simpl; [|reflexivity].
  eexists. split; [reflexivity|]. split; [reflexivity|].
  rewrite body_id, body_boxScore. split; [apply count_up_value | reflexivity].
Qed.

(** C7.  In every face returned by [predict], each point of [meshRaw] is
    the point of [mesh] at the same place with [x] divided by the width of
    the input ([input.shape[2]]), [y] divided by its height
    ([input.shape[1]]) and [z], taken as 0 when it is absent, divided by
    [inputSize].  Where the divisor is zero, as [inputSize] is before a
    model is loaded, the coordinate is the result of a division by zero,
    which is no number. *)
Theorem meshRaw_normalised `{Imports} (input : Tensor) (config : Config.t)
    (env : Env.t) (clock : Clock.t) (st : State) (w h : number)
    (f : FaceResult.t) :
  shape input !! 2%nat = Some w ->
  shape input !! 1%nat = Some h ->
  In f (fst (fst (predict input config env clock st))) ->
  Forall2
    (fun raw pt =>
       ((w == 0 -> RawPoint.x raw = None)
        /\ (~ w == 0 ->
            exists q, RawPoint.x raw = Some q /\ q == Point.x pt / w))
       /\ ((h == 0 -> RawPoint.y raw = None)
           /\ (~ h == 0 ->
               exists q, RawPoint.y raw = Some q /\ q == Point.y pt / h))
       /\ ((inputSize st == 0 -> RawPoint.z raw = None)
           /\ (~ inputSize st == 0 ->
               exists q, RawPoint.z raw = Some q
                         /\ q == default 0 (Point.z pt) / inputSize st)))
    (FaceResult.meshRaw f) (FaceResult.mesh f).
Proof.
  intros Hw Hh Hf.
  apply predict_face_in in Hf as (id & box & _ & ->).
  rewrite body_meshRaw.
  induction (FaceResult.mesh _) as [|pt pts IH]; simpl; constructor.
  - apply raw_point_coordinates; assumption.
  - exact IH.
Qed.

(** ** Rotation correction *)




(** ** The cache after a call *)

Section CacheFacts.
Context `{Imports}.
Variables (input : Tensor) (config : Config.t) (env : Env.t) (clock : Clock.t).

(** The boxes handed on are the re-derived boxes of the passes that
    passed, in order. *)
Lemma omap_kept_passed (mdl : option GraphModel.t) (size : number)
    (boxes : list BoxCache) :
  forall id,
    let ss := steps config env input mdl size id boxes in
    omap kept ss
    = map (fun s => mesh_box (FaceResult.mesh (face s)))
          (filter (fun s => passed config mdl s = true) ss).
Proof.
  induction boxes as [|b bs IH]; intros id; simpl; [reflexivity|].
  pose proof (body_kept config env input mdl size id b) as Hk. simpl in Hk.
  rewrite Hk.
  destruct (passed config mdl (body config env input mdl size id b)) eqn:Hp.
  - rewrite filter_cons_True by exact Hp. simpl. f_equal. apply IH.
  - rewrite filter_cons_False by (rewrite Hp; discriminate). apply IH.
Qed.

Lemma predict_cache (st : State) :
  boxCache (snd (fst (predict input config env clock st)))
  = omap kept (steps config env input (model st) (inputSize st) 0
                     (processed input config clock st)).
Proof. rewrite predict_steps. reflexivity. Qed.

(** Without the mesh stage or without a model no pass passes. *)
Lemma passed_none (mdl : option GraphModel.t) (s : Step) :
  cfg_mesh_enabled config = false \/ mdl = None ->
  passed config mdl s = false.
Proof.
  unfold passed. intros [-> | ->]; [reflexivity|].
  simpl. rewrite andb_false_r. reflexivity.
Qed.

Lemma filter_passed_none (mdl : option GraphModel.t) (ss : list Step) :
  cfg_mesh_enabled config = false \/ mdl = None ->
  filter (fun s => passed config mdl s = true) ss = [].
Proof.
  intros Hoff. induction ss as [|s ss IH]; [reflexivity|].
  rewrite filter_cons_False; [exact IH|].
  rewrite (passed_none mdl s Hoff). discriminate.
Qed.
End CacheFacts.

(** C6.  After a detector refresh every box of the cache is the raw box of
    the detector scaled by the detector's scale factor, then enlarged by
    the square root of 1.6, then squarified.  Every box left in the cache
    at the end of a call is the bounding box of the landmarks of a returned
    mesh, enlarged by 1.6 and then squarified. *)
Theorem cache_box_derivation `{Imports} (input : Tensor) (config : Config.t)
    (env : Env.t) (clock : Clock.t) (st : State) :
  let r := predict input config env clock st in
  let found := getBoxes input config in
  (detector_ran (snd r) = true ->
   processed input config clock st
   = map (fun possible =>
            squarifyBox
              (enlargeBox
                 (scaleBoxCoordinates
                    (mkBoxCache (data (Blazeface.box_startPoint possible))
                                (data (Blazeface.box_endPoint possible))
                                (array (Blazeface.p_landmarks possible))
                                (Blazeface.p_confidence possible))
                    (Blazeface.scaleFactor found))
                 (Math_sqrt 1.6)))
         (Blazeface.boxes found))
  /\ Forall
       (fun b =>
          exists f,
            In f (fst (fst r))
            /\ b = squarifyBox
                     (enlargeBox
                        (calculateLandmarksBoundingBox (FaceResult.mesh f)) 1.6))
       (boxCache (snd (fst r))).
Proof.
  intros r found. subst r. split.
  - rewrite predict_detector_ran. intros Hdue.
    unfold processed, detect. rewrite Hdue. simpl. apply push_boxes_map.
  - rewrite predict_cache, omap_kept_passed.
    rewrite predict_steps. simpl.
    apply Forall_forall. intros b Hb.
    apply list_elem_of_In, in_map_iff in Hb as (s & <- & Hs).
    apply list_elem_of_In, list_elem_of_filter in Hs as [_ Hs].
    exists (face s). split; [|reflexivity].
    apply in_map, list_elem_of_In. exact Hs.
Qed.

(** C9.  At the end of every call of [predict] the cache consists of
    exactly the boxes re-derived from the meshes that passed the confidence
    threshold in that call, in order.  In particular, when the mesh stage
    is disabled or the mesh model is not loaded the cache is empty after
    the call, and the next call runs the detector whatever its [skipTime]
    and [skipFrames] are. *)
Theorem cache_after_predict `{Imports} (input : Tensor) (config : Config.t)
    (env : Env.t) (clock : Clock.t) (st : State) :
  let st' := snd (fst (predict input config env clock st)) in
  let ss := steps config env input (model st) (inputSize st) 0
                  (processed input config clock st) in
  boxCache st'
  = map (fun s => mesh_box (FaceResult.mesh (face s)))
        (filter (fun s => passed config (model st) s = true) ss)
  /\ (cfg_mesh_enabled config = false \/ model st = None ->
      boxCache st' = []
      /\ forall input' config' env' clock',
           detector_ran (snd (predict input' config' env' clock' st')) = true).
Proof.
  intros st' ss. subst st'.
  assert (Hc : boxCache (snd (fst (predict input config env clock st)))
               = map (fun s => mesh_box (FaceResult.mesh (face s)))
                     (filter (fun s => passed config (model st) s = true) ss)).
  { rewrite predict_cache. apply omap_kept_passed. }
  split; [exact Hc|].
  intros Hoff.
  assert (He : boxCache (snd (fst (predict input config env clock st))) = []).
  { rewrite Hc, filter_passed_none by exact Hoff. reflexivity. }
  split; [exact He|].
  intros input' config' env' clock'.
  rewrite predict_detector_ran. apply refresh_due_iff. tauto.
Qed.

(** C4.  When a call of [predict] runs the detector, the cache it works on
    consists of one entry per detected box, each made from that box alone,
    and nothing of the previous cache matters: with any other cache,
    counter and time stamp in its place, a call that runs the detector
    returns the same faces and leaves the same module variables. *)
Theorem refresh_discards_cache `{Imports} (input : Tensor) (config : Config.t)
    (env : Env.t) (clock : Clock.t) (st : State) :
  detector_ran (snd (predict input config env clock st)) = true ->
  let found := getBoxes input config in
  processed input config clock st
  = map (cache_entry (Blazeface.scaleFactor found)) (Blazeface.boxes found)
  /\ length (processed input config clock st) = length (Blazeface.boxes found)
  /\ forall (old : list BoxCache) (n t : number),
       let st2 := mkState old (model st) (inputSize st) n t in
       detector_ran (snd (predict input config env clock st2)) = true ->
       predict input config env clock st2 = predict input config env clock st.
Proof.
  rewrite predict_detector_ran. intros Hdue found.
  assert (Hp : processed input config clock st
               = map (cache_entry (Blazeface.scaleFactor found))
                     (Blazeface.boxes found)).
  { unfold processed, detect. rewrite Hdue. simpl. apply push_boxes_map. }
  split; [exact Hp|].
  split; [rewrite Hp; apply length_map|].
  intros old n t st2. rewrite predict_detector_ran. intros Hdue2.
  rewrite !predict_steps. unfold processed, detect.
  rewrite Hdue, Hdue2. reflexivity.
Qed.

(** ** A mesh of low confidence *)

Section LowConfidence.
Context `{Imports}.
Variables (config : Config.t) (env : Env.t) (input : Tensor).

(** The pass for a box whose mesh scores below the threshold in force. *)
Lemma body_low (m : GraphModel.t) (size id : number) (box : BoxCache) :
  let tensor := snd (fst (crop config env input size box)) in
  let low := round2 (GraphModel.faceConfidence (GraphModel.execute m tensor)) in
  cfg_mesh_enabled config = true ->
  js_lt low (cfg_minConfidence config) = true ->
  body config env input (Some m) size id box
  = mkStep
      (FaceResult.mk id [] [] zero_box zero_box 0 (round2 (confidence box)) low
         [] (Some tensor))
      None (set_confidence box low)
      (snd (crop config env input size box) ++ [EvExecute]).
Proof.
  intros tensor low Hmesh Hlow. subst tensor low. unfold body.
  destruct (crop config env input size box) as [[[a rm] t] ev].
  simpl in *. rewrite Hmesh. simpl. rewrite Hlow. reflexivity.
Qed.

Lemma crop_no_execute (size : number) (box : BoxCache) :
  occurrences EvExecute (snd (crop config env input size box) ++ [EvExecute])
  = 1%nat.
Proof.
  rewrite crop_events. destruct (use_rotation config env); reflexivity.
Qed.

(** A given threshold is the threshold in force unless it is zero, and
    what is below it is below the threshold in force. *)
Lemma below_minConfidence (mc low : number) :
  Config.detector (Config.face config) ≫= Config.minConfidence = Some mc ->
  low < mc ->
  js_lt low (cfg_minConfidence config) = true.
Proof.
  intros Hmc Hlow. apply js_lt_true. unfold cfg_minConfidence.
  rewrite Hmc. simpl. apply below_threshold. exact Hlow.
Qed.
End LowConfidence.

(** C3.  When the mesh model is run for a cached box and the face score it
    yields is below [config.face.detector.minConfidence], the box is
    discarded: the confidence of the cached object is overwritten with that
    score, the cache for the next call is made of what the other boxes hand
    on, and the face returned for the box has an empty mesh, no annotations
    and score 0.  The mesh model is run once for the box. *)
Theorem low_confidence_discarded `{Imports} (input : Tensor)
    (config : Config.t) (env : Env.t) (clock : Clock.t) (st : State)
    (i : nat) (box : BoxCache) (m : GraphModel.t) (mc : number) :
  let boxes := processed input config clock st in
  let ss := steps config env input (model st) (inputSize st) 0 boxes in
  let s := body config env input (model st) (inputSize st) (count_up i 0) box in
  let tensor := snd (fst (crop config env input (inputSize st) box)) in
  let low := round2 (GraphModel.faceConfidence (GraphModel.execute m tensor)) in
  let r := predict input config env clock st in
  cfg_mesh_enabled config = true ->
  model st = Some m ->
  Config.detector (Config.face config) ≫= Config.minConfidence = Some mc ->
  boxes !! i = Some box ->
  low < mc ->
  FaceResult.faceScore (face s) = low
  /\ cache (run_loop config env input (model st) (inputSize st) boxes) !! i
     = Some (set_confidence box low)
  /\ kept s = None
  /\ boxCache (snd (fst r))
     = omap kept (take i ss) ++ omap kept (drop (S i) ss)
  /\ fst (fst r) !! i = Some (face s)
  /\ FaceResult.mesh (face s) = []
  /\ FaceResult.meshRaw (face s) = []
  /\ FaceResult.annotations (face s) = []
  /\ FaceResult.score (face s) = 0
  /\ occurrences EvExecute (events s) = 1%nat.
Proof.
  intros boxes ss s tensor low r Hmesh Hm Hmc Hbox Hlow.
  assert (Hs : s = mkStep
                 (FaceResult.mk (count_up i 0) [] [] zero_box zero_box 0
                    (round2 (confidence box)) low [] (Some tensor))
                 None (set_confidence box low)
                 (snd (crop config env input (inputSize st) box) ++ [EvExecute])).
  { subst s. rewrite Hm. apply body_low; [exact Hmesh|].
    apply (below_minConfidence config mc); assumption. }
  assert (Hi : ss !! i = Some s).
  { subst ss s. rewrite steps_lookup, Hbox. reflexivity. }
  assert (Hk : kept s = None) by (rewrite Hs; reflexivity).
  clearbody s.
  split; [rewrite Hs; reflexivity|].
  split.
  { rewrite run_loop_steps. simpl. fold ss.
    rewrite list_lookup_fmap, Hi, Hs. reflexivity. }
  split; [exact Hk|].
  split.
  { subst r. rewrite predict_cache. fold boxes. fold ss.
    rewrite <- (take_drop_middle ss i s Hi) at 1.
    rewrite omap_app. simpl. rewrite Hk. reflexivity. }
  split.
  { subst r. rewrite predict_steps. simpl. fold boxes. fold ss.
    rewrite list_lookup_fmap, Hi. reflexivity. }
  rewrite Hs. simpl. repeat split; try reflexivity.
  apply crop_no_execute.
Qed.

(** ** Histories: the counter of skipped frames *)

Section HistoryFacts.
Context `{Imports}.

(** [load] leaves the cache, the counter and the time stamp alone. *)
Lemma load_keeps (config : Config.t) (env : Env.t) (st : State) :
  let st' := snd (fst (load config env st)) in
  boxCache st' = boxCache st
  /\ skipped st' = skipped st
  /\ lastTime st' = lastTime st.
Proof.
  unfold load, set_inputSize.
  destruct (if Env.initial env then None else model st) as [g|].
  - destruct (GraphModel.inputs g); simpl; auto.
  - destruct (loadGraphModel _) as [|[g|]]; simpl; auto.
    destruct (GraphModel.inputs g); simpl; auto.
Qed.

Lemma run_app (cs1 cs2 : list call) (st : State) :
  run (cs1 ++ cs2) st = run cs2 (run cs1 st).
Proof. unfold run. apply fold_left_app. Qed.

Lemma reuses_app (cs1 cs2 : list call) :
  forall (st : State) (n : nat),
    reuses (cs1 ++ cs2) st n = reuses cs2 (run cs1 st) (reuses cs1 st n).
Proof.
  induction cs1 as [|c cs IH]; intros st n; [reflexivity|].
  simpl. apply IH.
Qed.

Lemma reachable_run (cs : list call) :
  forall st, reachable st -> reachable (run cs st).
Proof.
  induction cs as [|c cs IH]; intros st Hst; [exact Hst|].
  simpl. apply IH. constructor. exact Hst.
Qed.

Lemma reachable_history (st : State) :
  reachable st -> exists cs, st = run cs init.
Proof.
  induction 1 as [|st c _ [cs ->]].
  - exists []. reflexivity.
  - exists (cs ++ [c]). rewrite run_app. reflexivity.
Qed.

Lemma counts_predict (input : Tensor) (config : Config.t) (env : Env.t)
    (clock : Clock.t) (st : State) (n : nat) :
  counts st n ->
  let r := predict input config env clock st in
  counts (snd (fst r)) (if detector_ran (snd r) then O else S n).
Proof.
  intros Hst r. subst r. unfold counts.
  rewrite predict_detector_ran, predict_steps. simpl. unfold detect.
  destruct (refresh_due config (Clock.entry clock) st) eqn:Hdue; simpl.
  - intros _. reflexivity.
  - intros _.
    assert (Hne : boxCache st <> []).
    { intros He. assert (Ht : refresh_due config (Clock.entry clock) st = true)
        by (apply refresh_due_iff; tauto). congruence. }
    rewrite (Hst Hne), Nat2Z.inj_succ. unfold Z.succ.
    rewrite inject_Z_plus. reflexivity.
Qed.

Lemma counts_run (cs : list call) :
  forall (st : State) (n : nat),
    counts st n -> counts (run cs st) (reuses cs st n).
Proof.
  induction cs as [|c cs IH]; intros st n Hst; [exact Hst|].
  simpl. apply IH. destruct c as [input config env clock | config env].
  - apply counts_predict. exact Hst.
  - unfold counts, step.
    destruct (load_keeps config env st) as (-> & -> & _). exact Hst.
Qed.
End HistoryFacts.

(** C2 (as amended).  After every history of calls, a call of [predict]
    either runs the detector, or the number of consecutive calls that have
    used the cache without it, this call included, is strictly below
    [skipFrames + 1]: at most [skipFrames] when that is a whole number.
    It is strictly below [skipFrames] only when the current call is left
    out.  The counter [skipped] holds the number. *)
Theorem reuse_bounded_by_skipFrames `{Imports} (cs : list call)
    (input : Tensor) (config : Config.t) (env : Env.t) (clock : Clock.t) :
  let st := run cs init in
  let r := predict input config env clock st in
  let n := reuses (cs ++ [CallPredict input config env clock]) init 0 in
  reachable st
  /\ reachable (snd (fst r))
  /\ (detector_ran (snd r) = true
      \/ (inject_Z (Z.of_nat n) < cfg_skipFrames config + 1
          /\ n = S (reuses cs init 0)
          /\ inject_Z (Z.of_nat (reuses cs init 0)) < cfg_skipFrames config
          /\ skipped (snd (fst r)) == inject_Z (Z.of_nat n)
          /\ forall k : Z,
               cfg_skipFrames config == inject_Z k -> (Z.of_nat n <= k)%Z)).
Proof.
  intros st r n.
  assert (Hst : reachable st) by (apply reachable_run; constructor).
  split; [exact Hst|].
  split; [apply (reach_step st (CallPredict input config env clock) Hst)|].
  destruct (detector_ran (snd r)) eqn:Hran; [left; reflexivity | right].
  assert (Hcount : counts st (reuses cs init 0)).
  { apply counts_run. intros Hne. contradiction Hne. reflexivity. }
  assert (Hn : n = S (reuses cs init 0)).
  { subst n. rewrite reuses_app. simpl. fold st. fold r. rewrite Hran.
    reflexivity. }
  subst r. rewrite predict_detector_ran in Hran.
  assert (Hdue := Hran). unfold refresh_due in Hdue.
  apply orb_false_iff in Hdue as [Hdue Hlen].
  apply orb_false_iff in Hdue as [_ Hframe].
  apply negb_false_iff, js_lt_true in Hframe.
  assert (Hne : boxCache st <> []).
  { intros He. rewrite He in Hlen. discriminate. }
  specialize (Hcount Hne).
  assert (Hsucc : inject_Z (Z.of_nat n) == skipped st + 1).
  { rewrite Hn, Nat2Z.inj_succ. unfold Z.succ.
    rewrite inject_Z_plus, Hcount. reflexivity. }
  split; [rewrite Hsucc; lra|].
  split; [exact Hn|].
  split; [rewrite <- Hcount; exact Hframe|].
  split.
  - rewrite predict_steps. simpl. unfold detect. rewrite Hran. simpl.
    symmetry. exact Hsucc.
  - intros k Hk. rewrite Hk, Hcount in Hframe.
    rewrite <- Zlt_Qlt in Hframe. lia.
Qed.

(** ** Logging and failures *)

Section LogFacts.
Context `{Imports}.
Variables (config : Config.t) (env : Env.t) (input : Tensor).
Variables (mdl : option GraphModel.t) (size : number).

Lemma occurrences_app (e : event) (a b : list event) :
  occurrences e (a ++ b) = (occurrences e a + occurrences e b)%nat.
Proof. unfold occurrences. rewrite filter_app, length_app. reflexivity. Qed.

Lemma occurrences_none (e : event) (tr : list event) :
  existsb (event_eqb e) tr = false -> occurrences e tr = 0%nat.
Proof.
  unfold occurrences. induction tr as [|a tr IH]; intros Hno; [reflexivity|].
  cbn [existsb] in Hno. apply orb_false_iff in Hno as [Ha Htr].
  rewrite filter_cons_False by (rewrite Ha; discriminate).
  apply IH. exact Htr.
Qed.

(** An event that every pass makes [c] times is made [c] times per box. *)
Lemma occurrences_steps (e : event) (c : nat) (boxes : list BoxCache) :
  (forall id box,
     occurrences e (events (body config env input mdl size id box)) = c) ->
  forall id,
    occurrences e (concat (map events (steps config env input mdl size id boxes)))
    = (length boxes * c)%nat.
Proof.
  intros Hc. induction boxes as [|b bs IH]; intros id; simpl; [reflexivity|].
  rewrite occurrences_app, Hc, IH. reflexivity.
Qed.

(** The mesh model is run once in a pass, if the mesh stage is on and the
    model is there, and never otherwise. *)
Lemma body_executes (id : number) (box : BoxCache) :
  occurrences EvExecute (events (body config env input mdl size id box))
  = if cfg_mesh_enabled config && is_loaded mdl then 1%nat else 0%nat.
Proof.
  rewrite body_events.
  destruct (use_rotation config env), (cfg_mesh_enabled config), mdl; simpl;
    repeat match goal with |- context [if ?b then _ else _] => destruct b end;
    reflexivity.
Qed.

(** The only thing a pass logs is that the model is missing. *)
Lemma body_logs (id : number) (box : BoxCache) :
  occurrences (EvLog not_loaded_msg None)
              (events (body config env input mdl size id box))
  = if cfg_mesh_enabled config && negb (is_loaded mdl) && Config.debug config
    then 1%nat else 0%nat.
Proof.
  rewrite body_events.
  destruct (use_rotation config env), (cfg_mesh_enabled config), mdl; simpl;
    repeat match goal with |- context [if ?b then _ else _] => destruct b end;
    reflexivity.
Qed.

Lemma body_log_only (id : number) (box : BoxCache) (msg : string)
    (arg : option string) :
  In (EvLog msg arg) (events (body config env input mdl size id box)) ->
  cfg_mesh_enabled config = true /\ mdl = None /\ Config.debug config = true
  /\ msg = not_loaded_msg /\ arg = None.
Proof.
  rewrite body_events.
  destruct (use_rotation config env), (cfg_mesh_enabled config), mdl; simpl;
    repeat match goal with |- context [if ?b then _ else _] => destruct b end;
    simpl; intros Hin;
    repeat match goal with
           | Hor : _ \/ _ |- _ => destruct Hor as [Hor | Hor]
           | Heq : _ = EvLog _ _ |- _ => inversion Heq; clear Heq
           end;
    try contradiction; auto.
Qed.

(** The pass when the mesh stage is on and there is no model. *)
Lemma body_unloaded (id : number) (box : BoxCache) :
  cfg_mesh_enabled config = true ->
  let f := face (body config env input None size id box) in
  FaceResult.mesh f = [] /\ FaceResult.meshRaw f = []
  /\ FaceResult.annotations f = [] /\ FaceResult.score f = 0
  /\ FaceResult.faceScore f = 0.
Proof.
  intros Hmesh. unfold body.
  destruct (crop config env input size box) as [[[a rm] t] ev].
  rewrite Hmesh. simpl. auto.
Qed.
End LogFacts.

Section FailureFacts.
Context `{Imports}.

(** [load] when the loader answers with a model that has no [modelUrl]. *)
Lemma load_without_url (config : Config.t) (env : Env.t) (st : State)
    (g : GraphModel.t) :
  let path :=
    join (Config.modelBasePath config) (str_or (cfg_modelPath config) "") in
  (if Env.initial env then None else model st) = None ->
  loadGraphModel path = Resolved (Some g) ->
  has_url g = false ->
  GraphModel.inputs g <> [] ->
  fst (fst (load config env st)) = Returned g
  /\ model (snd (fst (load config env st))) = Some g
  /\ snd (load config env st)
     = [EvLoadGraphModel path;
        EvLog "load model failed:" (cfg_modelPath config)].
Proof.
  intros path Hcur Hload Hurl Hin. unfold load. rewrite Hcur.
  fold path. rewrite Hload. unfold set_inputSize. rewrite Hurl.
  destruct (GraphModel.inputs g); [contradiction|]. simpl. auto.
Qed.

Lemma predict_log_only (input : Tensor) (config : Config.t) (env : Env.t)
    (clock : Clock.t) (st : State) (msg : string) (arg : option string) :
  In (EvLog msg arg) (snd (predict input config env clock st)) ->
  cfg_mesh_enabled config = true /\ model st = None
  /\ Config.debug config = true /\ msg = not_loaded_msg /\ arg = None.
Proof.
  rewrite predict_steps. simpl. rewrite detect_events, in_app_iff.
  intros [Hin | Hin].
  - destruct (refresh_due _ _ _); simpl in Hin; [|contradiction].
    destruct Hin as [Hc | []]. discriminate.
  - apply in_concat in Hin as (tr & Htr & Hin).
    apply in_map_iff in Htr as (s & <- & Hs).
    apply steps_in in Hs as (id & box & _ & ->).
    apply body_log_only in Hin. exact Hin.
Qed.

Lemma predict_occurrences (input : Tensor) (config : Config.t) (env : Env.t)
    (clock : Clock.t) (st : State) (e : event) (c : nat) :
  event_eqb e EvGetBoxes = false ->
  (forall id box,
     occurrences e (events (body config env input (model st) (inputSize st)
                                 id box)) = c) ->
  occurrences e (snd (predict input config env clock st))
  = (length (processed input config clock st) * c)%nat.
Proof.
  intros He Hc. rewrite predict_steps. simpl.
  rewrite occurrences_app, (occurrences_steps _ _ _ _ _ e c) by exact Hc.
  rewrite detect_events.
  destruct (refresh_due _ _ _); [|reflexivity].
  unfold occurrences. rewrite filter_cons_False by (rewrite He; discriminate).
  reflexivity.
Qed.
End FailureFacts.

(** The passes of the loop belong to the boxes of the cache, one each, in
    order. *)
Lemma steps_boxes `{Imports} (config : Config.t) (env : Env.t) (input : Tensor)
    (mdl : option GraphModel.t) (size : number) (boxes : list BoxCache) :
  forall id,
    Forall2 (fun s box => exists id', s = body config env input mdl size id' box)
            (steps config env input mdl size id boxes) boxes.
Proof.
  induction boxes as [|b bs IH]; intros id; simpl; constructor.
  - exists id. reflexivity.
  - apply IH.
Qed.

(** C8 (as amended).  Error handling is limited to logging.  When the
    loader answers with a model that has no [modelUrl], [load] logs a
    failure message, and it returns the model without raising when the
    model has an input signature.  When [predict] is called with the mesh
    stage enabled and no model loaded, the pass of each cached box logs
    the condition once if [config.debug] is set and not otherwise, and
    [predict] returns one face per cached box without mesh data.
    [predict] logs nothing else: a confidence below the threshold is not
    logged.  Nothing is retried: the detector runs at most once in a call
    and the pass of each cached box runs the mesh model at most once. *)
Theorem error_handling_is_logging `{Imports} (input : Tensor)
    (config : Config.t) (env : Env.t) (clock : Clock.t) (st : State) :
  let r := predict input config env clock st in
  let boxes := processed input config clock st in
  let passes := steps config env input (model st) (inputSize st) 0 boxes in
  let path :=
    join (Config.modelBasePath config) (str_or (cfg_modelPath config) "") in
  (forall g,
     (if Env.initial env then None else model st) = None ->
     loadGraphModel path = Resolved (Some g) ->
     has_url g = false ->
     snd (load config env st)
     = [EvLoadGraphModel path;
        EvLog "load model failed:" (cfg_modelPath config)]
     /\ (GraphModel.inputs g <> [] ->
         fst (fst (load config env st)) = Returned g))
  /\ (snd r
      = (if detector_ran (snd r) then [EvGetBoxes] else [])
        ++ concat (map events passes)
      /\ Forall2
           (fun s box =>
              (exists id,
                 s = body config env input (model st) (inputSize st) id box)
              /\ (occurrences EvExecute (events s) <= 1)%nat
              /\ occurrences (EvLog not_loaded_msg None) (events s)
                 = (if cfg_mesh_enabled config && negb (is_loaded (model st))
                       && Config.debug config
                    then 1 else 0)%nat
              /\ detector_ran (events s) = false)
           passes boxes)
  /\ (cfg_mesh_enabled config = true ->
      model st = None ->
      length (fst (fst r)) = length boxes
      /\ Forall (fun f => FaceResult.mesh f = [] /\ FaceResult.meshRaw f = []
                          /\ FaceResult.annotations f = []) (fst (fst r))
      /\ occurrences (EvLog not_loaded_msg None) (snd r)
         = if Config.debug config then length boxes else 0%nat)
  /\ (forall msg arg,
        In (EvLog msg arg) (snd r) ->
        cfg_mesh_enabled config = true /\ model st = None
        /\ Config.debug config = true /\ msg = not_loaded_msg /\ arg = None)
  /\ (occurrences EvGetBoxes (snd r) <= 1)%nat
  /\ (occurrences EvExecute (snd r) <= length boxes)%nat.
Proof.
  intros r boxes passes path. subst r.
  split.
  { intros g Hcur Hload Hurl. unfold load. rewrite Hcur. fold path.
    rewrite Hload. unfold set_inputSize. rewrite Hurl.
    destruct (GraphModel.inputs g); simpl.
    - split; [reflexivity | intros Hc; contradiction].
    - split; reflexivity. }
  split.
  { split.
    - rewrite predict_detector_ran, predict_steps. simpl.
      rewrite detect_events. destruct (refresh_due _ _ _); reflexivity.
    - eapply Forall2_impl; [apply steps_boxes|].
      intros s box (id & ->). split; [exists id; reflexivity|].
      rewrite body_executes, body_logs. split; [|split; [reflexivity|]].
      + destruct (_ && _); lia.
      + pose proof (steps_no_detector input config env (model st)
                      (inputSize st) [box] id) as Hno.
        simpl in Hno. rewrite app_nil_r in Hno. exact Hno. }
  split.
  { intros Hmesh Hnone. split; [|split].
    - rewrite predict_steps. simpl. rewrite length_map. apply steps_length.
    - apply Forall_forall. intros f Hf.
      apply list_elem_of_In, predict_face_in in Hf as (id & box & _ & ->).
      rewrite Hnone.
      destruct (body_unloaded config env input (inputSize st) id box Hmesh)
        as (Hm & Hr & Ha & _).
      auto.
    - rewrite (predict_occurrences input config env clock st _
                 (if Config.debug config then 1%nat else 0%nat)).
      + fold boxes. destruct (Config.debug config); lia.
      + reflexivity.
      + intros id box. rewrite body_logs, Hmesh, Hnone. reflexivity. }
  split; [intros msg arg; apply predict_log_only|].
  split.
  - rewrite predict_steps. simpl. rewrite occurrences_app, detect_events.
    assert (Hz : occurrences EvGetBoxes
                   (concat (map events
                      (steps config env input (model st) (inputSize st) 0
                             (processed input config clock st)))) = 0%nat).
    { pose proof (steps_no_detector input config env (model st) (inputSize st)
                    (processed input config clock st) 0) as Hno.
      apply occurrences_none. exact Hno. }
    rewrite Hz. destruct (refresh_due _ _ _); simpl; lia.
  - rewrite (predict_occurrences input config env clock st _
               (if cfg_mesh_enabled config && is_loaded (model st)
                then 1%nat else 0%nat)).
    + fold boxes. destruct (_ && _); lia.
    + reflexivity.
    + intros id box. apply body_executes.
Qed.

(** * The properties at work on the concrete instance *)

(** C7 on a frame of 640 by 480.  With a model of input size 192 the one
    face returned has a mesh of two points, each divided as stated; before
    any model is loaded [inputSize] is 0 and the third coordinate of the
    detector's landmark is no number. *)
Lemma meshRaw_normalised_witness :
  let I := Demo.imports Rejected in
  let st := Demo.loaded Demo.sure in
  let returned :=
    fst (fst (@predict Demo.tfjs I tt (Demo.config 1) Demo.env (Demo.clock 0) st)) in
  let early :=
    fst (fst (@predict Demo.tfjs I tt Demo.detector_only Demo.env (Demo.clock 0)
                (@init Demo.tfjs))) in
  @shape Demo.tfjs tt !! 2%nat = Some 640
  /\ @shape Demo.tfjs tt !! 1%nat = Some 480
  /\ (exists f,
        returned = [f]
        /\ length (FaceResult.mesh f) = 2%nat
        /\ Forall2
             (fun raw pt =>
                exists qx qy qz,
                  raw = RawPoint.mk (Some qx) (Some qy) (Some qz)
                  /\ qx == Point.x pt / 640
                  /\ qy == Point.y pt / 480
                  /\ qz == default 0 (Point.z pt) / 192)
             (FaceResult.meshRaw f) (FaceResult.mesh f))
  /\ (exists f,
        early = [f]
        /\ length (FaceResult.mesh f) = 1%nat
        /\ Forall2
             (fun raw pt =>
                RawPoint.z raw = None
                /\ exists qx, RawPoint.x raw = Some qx
                              /\ qx == Point.x pt / 640)
             (FaceResult.meshRaw f) (FaceResult.mesh f)).
Proof.
  intros I st returned early.
  split; [reflexivity|]. split; [reflexivity|]. split.
  - eexists. split; [vm_compute; reflexivity|]. split; [reflexivity|].
    eapply Forall2_impl.
    + apply (@meshRaw_normalised Demo.tfjs I tt (Demo.config 1) Demo.env
               (Demo.clock 0) st 640 480);
        [reflexivity | reflexivity | vm_compute; left; reflexivity].
    + intros [rx ry rz] pt ((_ & Hx) & (_ & Hy) & (_ & Hz)). simpl in *.
      destruct Hx as (qx & -> & Hqx); [intros Hc; discriminate Hc|].
      destruct Hy as (qy & -> & Hqy); [intros Hc; discriminate Hc|].
      destruct Hz as (qz & -> & Hqz); [intros Hc; discriminate Hc|].
      exists qx, qy, qz. auto.
  - eexists. split; [vm_compute; reflexivity|]. split; [reflexivity|].
    eapply Forall2_impl.
    + apply (@meshRaw_normalised Demo.tfjs I tt Demo.detector_only Demo.env
               (Demo.clock 0) (@init Demo.tfjs) 640 480);
        [reflexivity | reflexivity | vm_compute; left; reflexivity].
    + intros raw pt ((_ & Hx) & _ & (Hz & _)). simpl in *.
      split; [apply Hz; reflexivity|].
      apply Hx. intros Hc. discriminate Hc.
Defined.

(** C3 with the unsure model: the face score 0.1 is below the threshold
    0.2, the cached confidence 0.9 becomes 0.1, the next cache is empty and
    the face has no mesh and score 0. *)
Lemma low_confidence_discarded_witness :
  let I := Demo.imports Rejected in
  let st := Demo.loaded Demo.unsure in
  let config := Demo.config 1 in
  let r := @predict Demo.tfjs I tt config Demo.env (Demo.clock 0) st in
  let boxes := @processed Demo.tfjs I tt config (Demo.clock 0) st in
  cfg_mesh_enabled config = true
  /\ model st = Some Demo.unsure
  /\ Config.detector (Config.face config) ≫= Config.minConfidence = Some 0.2
  /\ exists box f,
       boxes !! 0%nat = Some box
       /\ confidence box = 0.9
       /\ fst (fst r) !! 0%nat = Some f
       /\ FaceResult.faceScore f = 0.10
       /\ FaceResult.faceScore f < 0.2
       /\ (confidence <$>
             cache (@run_loop Demo.tfjs I config Demo.env tt (model st)
                      (inputSize st) boxes) !! 0%nat) = Some 0.10
       /\ boxCache (snd (fst r)) = []
       /\ FaceResult.mesh f = []
       /\ FaceResult.annotations f = []
       /\ FaceResult.score f = 0.
Proof.
  intros I st config r boxes.
  split; [reflexivity|]. split; [reflexivity|]. split; [reflexivity|].
  eexists. eexists.
  split; [vm_compute; reflexivity|].
  destruct (@low_confidence_discarded Demo.tfjs I tt config Demo.env
              (Demo.clock 0) st 0%nat
              (@cache_entry Demo.tfjs I 2
                 (@Blazeface.mkPrediction Demo.tfjs tt tt tt 0.9))
              Demo.unsure 0.2)
    as (Hscore & Hcache & _ & Hnext & Hface & Hmesh & _ & Hann & Hsc & _).
  - reflexivity.
  - reflexivity.
  - reflexivity.
  - vm_compute. reflexivity.
  - vm_compute. reflexivity.
  - split; [reflexivity|].
    split; [exact Hface|].
    split; [rewrite Hscore; vm_compute; reflexivity|].
    split; [rewrite Hscore; vm_compute; reflexivity|].
    split; [fold boxes in Hcache; rewrite Hcache; vm_compute; reflexivity|].
    split; [fold r in Hnext; rewrite Hnext; vm_compute; reflexivity|].
    split; [exact Hmesh|].
    split; [exact Hann | exact Hsc].
Defined.

(** C4 on the first frame: the detector runs, and the call with a cache
    left over from elsewhere gives the same result. *)
Lemma refresh_discards_cache_witness :
  let I := Demo.imports Rejected in
  let config := Demo.config 0 in
  let st := Demo.loaded Demo.sure in
  let st2 := mkState [Demo.box; Demo.box] (model st) (inputSize st) 7 3 in
  detector_ran
    (snd (@predict Demo.tfjs I tt config Demo.env (Demo.clock 1) st)) = true
  /\ detector_ran
       (snd (@predict Demo.tfjs I tt config Demo.env (Demo.clock 1) st2)) = true
  /\ length (@processed Demo.tfjs I tt config (Demo.clock 1) st2) = 1%nat
  /\ @predict Demo.tfjs I tt config Demo.env (Demo.clock 1) st2
     = @predict Demo.tfjs I tt config Demo.env (Demo.clock 1) st.
Proof.
  intros I config st st2.
  assert (Hran : detector_ran
            (snd (@predict Demo.tfjs I tt config Demo.env (Demo.clock 1) st))
          = true) by (vm_compute; reflexivity).
  assert (Hran2 : detector_ran
            (snd (@predict Demo.tfjs I tt config Demo.env (Demo.clock 1) st2))
          = true) by (vm_compute; reflexivity).
  split; [exact Hran|]. split; [exact Hran2|].
  destruct (@refresh_discards_cache Demo.tfjs I tt config Demo.env
              (Demo.clock 1) st Hran) as (_ & _ & Hsame).
  split; [vm_compute; reflexivity|].
  exact (Hsame [Demo.box; Demo.box] 7 3 Hran2).
Defined.

(** C2 as stated fails.  With [skipFrames = 1], after the model is loaded
    and a first frame has run the detector, the second frame uses the cache
    without the detector: one call in a row has reused it, and one is not
    strictly below [skipFrames]. *)
Lemma reuse_not_strictly_below_skipFrames :
  let I := Demo.imports (Resolved (Some Demo.sure)) in
  let config := Demo.config 1 in
  let before := [CallLoad config Demo.env; Demo.frame 0 config] in
  let st := @run Demo.tfjs I before init in
  let r := @predict Demo.tfjs I tt config Demo.env (Demo.clock 1) st in
  let n := @reuses Demo.tfjs I (before ++ [Demo.frame 1 config]) init 0 in
  @reachable Demo.tfjs I (snd (fst r))
  /\ detector_ran (snd r) = false
  /\ n = 1%nat
  /\ skipped (snd (fst r)) = 1
  /\ cfg_skipFrames config = 1
  /\ ~ (detector_ran (snd r) = true
        \/ inject_Z (Z.of_nat n) < cfg_skipFrames config).
Proof.
  intros I config before st r n.
  split.
  { apply (@reachable_run Demo.tfjs I (before ++ [Demo.frame 1 config])).
    constructor. }
  split; [vm_compute; reflexivity|].
  split; [vm_compute; reflexivity|].
  split; [vm_compute; reflexivity|].
  split; [vm_compute; reflexivity|].
  vm_compute. intros [Hran | Hlt]; discriminate.
Qed.

(** C8 as stated fails.  When the loader rejects, [load] raises and logs
    nothing; when it answers null, [load] logs the failure and then raises.
    And a face score of 0.1 under the threshold 0.2 is not logged, even
    with [config.debug] set: the call only runs the detector, cuts the box
    and runs the mesh model. *)
Lemma failed_load_raises_low_confidence_unlogged :
  let config := Demo.config 1 in
  let rejected :=
    @load Demo.tfjs (Demo.imports Rejected) config Demo.env init in
  let null :=
    @load Demo.tfjs (Demo.imports (Resolved None)) config Demo.env init in
  let r :=
    @predict Demo.tfjs (Demo.imports Rejected) tt config Demo.env
      (Demo.clock 0) (Demo.loaded Demo.unsure) in
  (fst (fst rejected) = Thrown LoadRejected
   /\ snd rejected = [EvLoadGraphModel "models/facemesh.json"])
  /\ (fst (fst null) = Thrown TypeError
      /\ snd null = [EvLoadGraphModel "models/facemesh.json";
                     EvLog "load model failed:" (Some "facemesh.json"%string)])
  /\ Config.debug config = true
  /\ (FaceResult.faceScore <$> fst (fst r)) = [0.10]
  /\ cfg_minConfidence config = 0.2
  /\ snd r = [EvGetBoxes; EvCutBox; EvExecute]
  /\ ~ (exists g, fst (fst rejected) = Returned g)
  /\ ~ (exists g, fst (fst null) = Returned g)
  /\ ~ (exists msg arg, In (EvLog msg arg) (snd r)).
Proof.
  vm_compute. repeat split; try reflexivity.
  - intros [g Hg]. discriminate Hg.
  - intros [g Hg]. discriminate Hg.
  - intros (msg & arg & [Hin | [Hin | [Hin | []]]]); discriminate Hin.
Qed.


(** C6 on the first frame: the detector runs, its one box gives the one
    entry of the cache, and the box left for the next call comes from the
    mesh of the face returned. *)
Lemma cache_box_derivation_witness :
  let I := Demo.imports Rejected in
  let st := Demo.loaded Demo.sure in
  let r := @predict Demo.tfjs I tt (Demo.config 1) Demo.env (Demo.clock 0) st in
  detector_ran (snd r) = true
  /\ length (@processed Demo.tfjs I tt (Demo.config 1) (Demo.clock 0) st) = 1%nat
  /\ length (boxCache (snd (fst r))) = 1%nat
  /\ Forall
       (fun b =>
          exists f,
            In f (fst (fst r))
            /\ b = @squarifyBox Demo.tfjs I
                     (@enlargeBox Demo.tfjs I
                        (@calculateLandmarksBoundingBox Demo.tfjs I
                           (FaceResult.mesh f)) 1.6))
       (boxCache (snd (fst r))).
Proof.
  intros I st r.
  assert (Hran : detector_ran (snd r) = true) by (vm_compute; reflexivity).
  destruct (@cache_box_derivation Demo.tfjs I tt (Demo.config 1) Demo.env
              (Demo.clock 0) st) as (Hfresh & Hkept).
  split; [exact Hran|].
  split; [rewrite (Hfresh Hran); reflexivity|].
  split; [vm_compute; reflexivity | exact Hkept].
Defined.

(** C9 with the mesh stage switched off: the cache is empty after the
    call, and the next frame runs the detector although neither 2500
    milliseconds nor one frame have passed. *)
Lemma cache_after_predict_witness :
  let I := Demo.imports Rejected in
  let st := Demo.loaded Demo.sure in
  let st' :=
    snd (fst (@predict Demo.tfjs I tt Demo.detector_only Demo.env
                (Demo.clock 0) st)) in
  cfg_mesh_enabled Demo.detector_only = false
  /\ boxCache st' = []
  /\ skipped st' = 0
  /\ detector_ran
       (snd (@predict Demo.tfjs I tt (Demo.config 1) Demo.env (Demo.clock 1) st'))
     = true.
Proof.
  intros I st st'.
  destruct (@cache_after_predict Demo.tfjs I tt Demo.detector_only Demo.env
              (Demo.clock 0) st) as (_ & Hoff).
  destruct (Hoff (or_introl eq_refl)) as (Hempty & Hnext).
  split; [reflexivity|].
  split; [exact Hempty|].
  split; [vm_compute; reflexivity|].
  apply Hnext.
Defined.

(** C8: a model that comes back without a [modelUrl] is reported and,
    having an input signature, returned; before any model is loaded, a
    frame gives one face without mesh, and the pass of its one box logs
    one line and runs no mesh model. *)
Lemma error_handling_is_logging_witness :
  let I := Demo.imports (Resolved (Some Demo.nameless)) in
  let config := Demo.config 1 in
  let r := @predict Demo.tfjs I tt config Demo.env (Demo.clock 0) init in
  let l := @load Demo.tfjs I config Demo.env init in
  let passes :=
    @steps Demo.tfjs I config Demo.env tt None 0 0
      (@processed Demo.tfjs I tt config (Demo.clock 0) init) in
  has_url Demo.nameless = false
  /\ GraphModel.inputs Demo.nameless <> []
  /\ fst (fst l) = Returned Demo.nameless
  /\ In (EvLog "load model failed:" (Some "facemesh.json"%string)) (snd l)
  /\ cfg_mesh_enabled config = true
  /\ length (fst (fst r)) = 1%nat
  /\ occurrences (EvLog not_loaded_msg None) (snd r) = 1%nat
  /\ length passes = 1%nat
  /\ Forall (fun s =>
               occurrences (EvLog not_loaded_msg None) (events s) = 1%nat
               /\ (occurrences EvExecute (events s) <= 1)%nat)
            passes.
Proof.
  intros I config r l passes.
  destruct (@error_handling_is_logging Demo.tfjs I tt config Demo.env
              (Demo.clock 0) init) as (Hload & (_ & Hpasses) & Hnone & _).
  destruct (Hload Demo.nameless) as (Hev & Hret);
    [reflexivity | reflexivity | reflexivity |].
  assert (Hin : GraphModel.inputs Demo.nameless <> []) by discriminate.
  destruct Hnone as (Hlen & _ & Hlog); [reflexivity | reflexivity |].
  split; [reflexivity|].
  split; [exact Hin|].
  split; [exact (Hret Hin)|].
  split; [subst l; rewrite Hev; right; left; reflexivity|].
  split; [reflexivity|].
  split; [subst r; rewrite Hlen; reflexivity|].
  split; [subst r; rewrite Hlog; reflexivity|].
  split; [reflexivity|].
  eapply Forall2_Forall_l.
  - eapply Forall2_impl; [exact Hpasses|].
    intros s box (_ & Hexec & Hlogs & _).
    exact (conj Hlogs Hexec).
  - apply Forall_forall. intros box _ s Hs. exact Hs.
Defined.

(** C2 (as amended) with [skipFrames = 1]: the second frame reuses the
    cache, one call in a row, which is at most 1. *)
Lemma reuse_bounded_by_skipFrames_witness :
  let I := Demo.imports (Resolved (Some Demo.sure)) in
  let config := Demo.config 1 in
  let before := [CallLoad config Demo.env; Demo.frame 0 config] in
  let n := @reuses Demo.tfjs I (before ++ [Demo.frame 1 config]) init 0 in
  detector_ran
    (snd (@predict Demo.tfjs I tt config Demo.env (Demo.clock 1)
            (@run Demo.tfjs I before init))) = false
  /\ cfg_skipFrames config == inject_Z 1
  /\ (Z.of_nat n <= 1)%Z.
Proof.
  intros I config before n.
  assert (Hreuse : detector_ran
            (snd (@predict Demo.tfjs I tt config Demo.env (Demo.clock 1)
                    (@run Demo.tfjs I before init))) = false)
    by (vm_compute; reflexivity).
  assert (Hk : cfg_skipFrames config == inject_Z 1) by reflexivity.
  destruct (@reuse_bounded_by_skipFrames Demo.tfjs I before tt config Demo.env
              (Demo.clock 1)) as (_ & _ & [Hran | (_ & _ & _ & _ & Hmost)]).
  - rewrite Hreuse in Hran. discriminate Hran.
  - split; [exact Hreuse|]. split; [exact Hk|]. exact (Hmost 1%Z Hk).
Defined.

(** ** Running the definitions *)

Example Math_round_half_up :
  Math_round 2.5 = 3 /\ Math_round (-2.5) = -2 /\ Math_round 0.4 = 0.
Proof. repeat split; reflexivity. Qed.

Example round2_of_score : round2 0.987 == 0.99 /\ round2 0.104 == 0.1.
Proof. split; reflexivity. Qed.

Example missing_detector_config :
  let config := Config.mk true false "" (Config.mkFace None None None) in
  cfg_skipTime config = 0 /\ cfg_skipFrames config = 0
  /\ cfg_minConfidence config = 1 /\ cfg_mesh_enabled config = false.
Proof. repeat split; reflexivity. Qed.

(** Three frames with [skipFrames = 2]: the detector runs on the first
    only, and [skipped] counts the two that follow. *)
Example three_frames :
  let I := Demo.imports (Resolved (Some Demo.sure)) in
  let config := Demo.config 2 in
  let st := @run Demo.tfjs I
              [CallLoad config Demo.env; Demo.frame 0 config;
               Demo.frame 1 config; Demo.frame 2 config] init in
  skipped st = 2 /\ lastTime st = 15 /\ length (boxCache st) = 1%nat
  /\ detector_ran
       (snd (@predict Demo.tfjs I tt config Demo.env (Demo.clock 3) st)) = true.
Proof. vm_compute. repeat split; reflexivity. Qed.

(** A frame with the detector only: the face carries the detector's
    landmarks and its score, and nothing is cached. *)
Example detector_only_frame :
  let I := Demo.imports Rejected in
  let r := @predict Demo.tfjs I tt Demo.detector_only Demo.env (Demo.clock 0)
             (@init Demo.tfjs) in
  (FaceResult.score <$> fst (fst r)) = [0.90]
  /\ (length ∘ FaceResult.mesh <$> fst (fst r)) = [1%nat]
  /\ boxCache (snd (fst r)) = []
  /\ snd r = [EvGetBoxes; EvCutBox].
Proof. vm_compute. repeat split; reflexivity. Qed.

(** * Further properties of the module *)

(** ** load *)

Section LoadFacts.
Context `{Imports}.
Variables (config : Config.t) (env : Env.t) (st : State).

(** [load] by cases on the stored model and on the loader's answer. *)
Lemma load_cases :
  load config env st
  = match stored_model env st with
    | Some g =>
        set_inputSize (Some g) st
          (if Config.debug config then [EvLog "cached model:" (url_text g)] else [])
    | None =>
        match loadGraphModel (model_path config) with
        | Rejected =>
            (Thrown LoadRejected,
             mkState (boxCache st) None (inputSize st) (skipped st) (lastTime st),
             [EvLoadGraphModel (model_path config)])
        | Resolved m =>
            set_inputSize m st
              (EvLoadGraphModel (model_path config)
               :: match m with
                  | None => [EvLog "load model failed:" (cfg_modelPath config)]
                  | Some g =>
                      if has_url g then
                        if Config.debug config
                        then [EvLog "load model:" (url_text g)] else []
                      else [EvLog "load model failed:" (cfg_modelPath config)]
                  end)
        end
    end.
Proof. reflexivity. Qed.

(** The trace of [set_inputSize] is the one it is given. *)
Lemma set_inputSize_events (m : option GraphModel.t) (ev : list event) :
  snd (set_inputSize m st ev) = ev.
Proof.
  unfold set_inputSize. destruct m as [g|]; [|reflexivity].
  destruct (GraphModel.inputs g); reflexivity.
Qed.

Lemma set_inputSize_outcome (m : option GraphModel.t) (ev : list event) :
  fst (fst (set_inputSize m st ev))
  = match m with
    | Some g => match GraphModel.inputs g with
                | [] => Thrown TypeError
                | _ :: _ => Returned g
                end
    | None => Thrown TypeError
    end.
Proof.
  unfold set_inputSize. destruct m as [g|]; [|reflexivity].
  destruct (GraphModel.inputs g); reflexivity.
Qed.

Lemma set_inputSize_model (m : option GraphModel.t) (ev : list event) :
  model (snd (fst (set_inputSize m st ev))) = m.
Proof.
  unfold set_inputSize. destruct m as [g|]; [|reflexivity].
  destruct (GraphModel.inputs g); reflexivity.
Qed.
End LoadFacts.

(** X1.  [load] returns a model exactly when it has one with an input
    signature: the stored model, or else the loader's answer.  It raises
    in every other case: the loader's rejection is passed on, and a null
    model or a model without inputs gives a TypeError.  A returned model
    is the one stored afterwards. *)
Theorem load_outcome `{Imports} (config : Config.t) (env : Env.t) (st : State) :
  let current := stored_model env st in
  let fetched := loadGraphModel (model_path config) in
  let r := load config env st in
  (forall g,
     fst (fst r) = Returned g
     <-> (current = Some g \/ (current = None /\ fetched = Resolved (Some g)))
         /\ GraphModel.inputs g <> [])
  /\ (forall e,
        fst (fst r) = Thrown e
        <-> (current = None /\ fetched = Rejected /\ e = LoadRejected)
            \/ (current = None /\ fetched = Resolved None /\ e = TypeError)
            \/ (exists g,
                  (current = Some g
                   \/ (current = None /\ fetched = Resolved (Some g)))
                  /\ GraphModel.inputs g = [] /\ e = TypeError))
  /\ (forall g, fst (fst r) = Returned g -> model (snd (fst r)) = Some g).
Proof.
  intros current fetched r. subst r. rewrite load_cases.
  fold current. fold fetched.
  destruct current as [g0|]; [|destruct fetched as [|[g0|]]];
    rewrite ?set_inputSize_outcome, ?set_inputSize_model; simpl;
    try destruct (GraphModel.inputs g0) eqn:Hin;
    (split; [|split]); intros; try split; intros;
    repeat match goal with
           | Hx : _ \/ _ |- _ => destruct Hx
           | Hx : _ /\ _ |- _ => destruct Hx
           | Hx : exists _, _ |- _ => destruct Hx
           end;
    simplify_eq; try congruence; eauto 10;
    (split; [auto | rewrite Hin; discriminate]).
Qed.

Section LoadTrace.
Context `{Imports}.
Variables (config : Config.t) (env : Env.t) (st : State).

Lemma occurrences_cons (e a : event) (tr : list event) :
  occurrences e (a :: tr)
  = ((if event_eqb e a then 1 else 0) + occurrences e tr)%nat.
Proof.
  unfold occurrences. destruct (event_eqb e a) eqn:E.
  - rewrite filter_cons_True by exact E. reflexivity.
  - rewrite filter_cons_False by (rewrite E; discriminate). reflexivity.
Qed.

(** The trace of [load]: the call of the loader if there is no stored
    model, then at most one line of log. *)
Lemma load_events :
  exists logs,
    snd (load config env st)
    = (if is_loaded (stored_model env st) then []
       else [EvLoadGraphModel (model_path config)]) ++ logs
    /\ (logs = []
        \/ (exists msg arg, logs = [EvLog msg arg]
            /\ (msg = "load model failed:"%string
                \/ Config.debug config = true))).
Proof.
  rewrite load_cases.
  destruct (stored_model env st) as [g|].
  - rewrite set_inputSize_events. simpl.
    destruct (Config.debug config); eauto 10.
  - destruct (loadGraphModel (model_path config)) as [|[g|]];
      rewrite ?set_inputSize_events; simpl; [eauto | | eauto 10].
    destruct (has_url g); [|eauto 10].
    destruct (Config.debug config); eauto 10.
Qed.
End LoadTrace.

(** X2.  [load] calls the loader exactly when there is no stored model to
    start from (none was loaded, or [env.initial] is set), then once, for
    the path joined from [modelBasePath] and [modelPath], and before
    anything is logged. *)
Theorem load_fetches_iff `{Imports} (config : Config.t) (env : Env.t)
    (st : State) :
  let tr := snd (load config env st) in
  (forall p, In (EvLoadGraphModel p) tr
             <-> p = model_path config
                 /\ (model st = None \/ Env.initial env = true))
  /\ occurrences (EvLoadGraphModel (model_path config)) tr
     = (if is_loaded (stored_model env st) then 0 else 1)%nat
  /\ (stored_model env st = None ->
      head tr = Some (EvLoadGraphModel (model_path config))).
Proof.
  intros tr. subst tr.
  assert (Hstored : stored_model env st = None
                    <-> model st = None \/ Env.initial env = true).
  { unfold stored_model. destruct (Env.initial env), (model st);
      split; intros; try reflexivity; try discriminate; auto.
    destruct H1; discriminate. }
  destruct (load_events config env st) as (logs & -> & Hlogs).
  destruct (stored_model env st) as [g|] eqn:Hs; simpl.
  - split; [|split].
    + intros p. split.
      * intros Hin.
        destruct Hlogs as [-> | (msg & arg & -> & _)]; simpl in Hin;
          [contradiction | destruct Hin as [Hc | []]; discriminate].
      * intros [_ Hnone]. apply Hstored in Hnone. discriminate.
    + destruct Hlogs as [-> | (msg & arg & -> & _)]; reflexivity.
    + intros Hc. discriminate Hc.
  - split; [|split].
    + intros p. split.
      * intros [Heq | Hin].
        -- injection Heq as <-. split; [reflexivity | apply Hstored; reflexivity].
        -- destruct Hlogs as [-> | (msg & arg & -> & _)]; simpl in Hin;
             [contradiction | destruct Hin as [Hc | []]; discriminate].
      * intros [-> _]. left. reflexivity.
    + rewrite occurrences_cons. simpl. rewrite String.eqb_refl.
      destruct Hlogs as [-> | (msg & arg & -> & _)]; reflexivity.
    + intros _. reflexivity.
Qed.

(** X3.  [load] logs at most one line.  It logs the failure message, with
    the configured [modelPath], exactly when the loader was called and
    answered with null or with a model that has no [modelUrl], whether or
    not [config.debug] is set; every other line is logged under
    [config.debug] only. *)
Theorem load_failure_logged_iff `{Imports} (config : Config.t) (env : Env.t)
    (st : State) :
  let tr := snd (load config env st) in
  let fetched := loadGraphModel (model_path config) in
  (forall arg,
     In (EvLog "load model failed:" arg) tr
     <-> arg = cfg_modelPath config
         /\ stored_model env st = None
         /\ (fetched = Resolved None
             \/ exists g, fetched = Resolved (Some g) /\ has_url g = false))
  /\ (forall msg arg,
        In (EvLog msg arg) tr ->
        msg = "load model failed:"%string \/ Config.debug config = true)
  /\ (length (filter (fun e => is_log e = true) tr) <= 1)%nat.
Proof.
  intros tr fetched. subst tr. split; [|split].
  - intros arg. rewrite load_cases. fold fetched.
    destruct (stored_model env st) as [g|].
    + rewrite set_inputSize_events. split.
      * destruct (Config.debug config); simpl; intros Hin;
          [destruct Hin as [Hc | []]; discriminate | contradiction].
      * intros (_ & Hc & _). discriminate.
    + destruct fetched as [|[g|]]; rewrite ?set_inputSize_events; simpl.
      * split.
        -- intros [Hc | []]. discriminate.
        -- intros (_ & _ & [Hc | (g & Hc & _)]); discriminate.
      * destruct (has_url g) eqn:Hurl.
        -- split.
           ++ destruct (Config.debug config); simpl;
                intros [Hc | Hin]; try discriminate; try contradiction.
              destruct Hin as [Hc | []]. discriminate.
           ++ intros (_ & _ & [Hc | (g' & Hc & Hu)]); [discriminate|].
              injection Hc as <-. congruence.
        -- split.
           ++ intros [Hc | [Hc | []]]; [discriminate|].
              injection Hc as <-. eauto 10.
           ++ intros (-> & _). right. left. reflexivity.
      * split.
        -- intros [Hc | [Hc | []]]; [discriminate|].
           injection Hc as <-. eauto 10.
        -- intros (-> & _). right. left. reflexivity.
  - intros msg arg Hin.
    destruct (load_events config env st) as (logs & Hev & Hlogs).
    rewrite Hev in Hin. apply in_app_iff in Hin as [Hin | Hin].
    + destruct (is_loaded _); simpl in Hin;
        [contradiction | destruct Hin as [Hc | []]; discriminate].
    + destruct Hlogs as [-> | (msg' & arg' & -> & Hwhy)]; simpl in Hin;
        [contradiction|].
      destruct Hin as [Heq | []]. injection Heq as <- <-. exact Hwhy.
  - destruct (load_events config env st) as (logs & -> & Hlogs).
    rewrite filter_app, length_app.
    destruct (is_loaded _), Hlogs as [-> | (msg & arg & -> & _)]; simpl; lia.
Qed.

Section LoadState.
Context `{Imports}.

(** After [load] has returned [g], the stored model is [g], it has an
    input signature, and [set_inputSize] for [g] gives the same state
    again. *)
Lemma load_returned (config : Config.t) (env : Env.t) (st : State)
    (g : GraphModel.t) :
  fst (fst (load config env st)) = Returned g ->
  let st1 := snd (fst (load config env st)) in
  model st1 = Some g
  /\ forall ev, set_inputSize (Some g) st1 ev = (Returned g, st1, ev).
Proof.
  rewrite load_cases.
  destruct (stored_model env st) as [g0|];
    [|destruct (loadGraphModel (model_path config)) as [|[g0|]]];
    unfold set_inputSize; try discriminate;
    destruct (GraphModel.inputs g0) eqn:Hin; simpl; try discriminate;
    intros Hg; injection Hg as <-; (split; [reflexivity|]);
    intros ev; rewrite Hin; reflexivity.
Qed.

(** [load] never leaves [inputSize] at -1. *)
Lemma load_inputSize (config : Config.t) (env : Env.t) (st : State) :
  ~ inputSize st == -1 ->
  ~ inputSize (snd (fst (load config env st))) == -1.
Proof.
  intros Hst. rewrite load_cases.
  assert (Hset : forall m ev,
            ~ inputSize (snd (fst (set_inputSize m st ev))) == -1).
  { intros m ev. unfold set_inputSize. destruct m as [g|]; [|exact Hst].
    destruct (GraphModel.inputs g) as [|first rest]; [exact Hst|]. simpl.
    destruct (Qeq_bool _ (-1)) eqn:E.
    - intros Hc. discriminate Hc.
    - apply Qeq_bool_neq. exact E. }
  destruct (stored_model env st) as [g|]; [apply Hset|].
  destruct (loadGraphModel (model_path config)); [exact Hst | apply Hset].
Qed.

Lemma predict_keeps_model (input : Tensor) (config : Config.t) (env : Env.t)
    (clock : Clock.t) (st : State) :
  let st' := snd (fst (predict input config env clock st)) in
  model st' = model st /\ inputSize st' = inputSize st.
Proof. rewrite predict_steps. split; reflexivity. Qed.
End LoadState.

(** X4.  Loading twice is loading once: after [load] has returned a model,
    a further [load] with [env.initial] unset, whatever its configuration,
    returns the same model without calling the loader and leaves every
    module variable as it is; it logs the cached model under
    [config.debug] and nothing otherwise. *)
Theorem load_again_is_cached `{Imports} (config config' : Config.t)
    (env env' : Env.t) (st : State) (g : GraphModel.t) :
  fst (fst (load config env st)) = Returned g ->
  Env.initial env' = false ->
  let st1 := snd (fst (load config env st)) in
  fst (load config' env' st1) = (Returned g, st1)
  /\ snd (load config' env' st1)
     = if Config.debug config' then [EvLog "cached model:" (url_text g)] else [].
Proof.
  intros Hret Hinit st1.
  destruct (load_returned config env st g Hret) as (Hmodel & Hset).
  fold st1 in Hmodel, Hset.
  rewrite (load_cases config' env' st1). unfold stored_model.
  rewrite Hinit, Hmodel, Hset. split; reflexivity.
Qed.

(** X5.  In every state the module can reach, [inputSize] is not -1.
    [predict] does not write it and a [load] that raises leaves it as it
    was; a [load] that returns sets it to the width declared by the first
    input of the model, to 64 when that width is -1, and to 0 when the
    input declares no shape. *)
Theorem inputSize_never_minus_one `{Imports} (cs : list call) (input : Tensor)
    (config : Config.t) (env : Env.t) (clock : Clock.t) :
  let st := run cs init in
  let l := load config env st in
  Qeq_bool (inputSize st) (-1) = false
  /\ inputSize (snd (fst (predict input config env clock st))) = inputSize st
  /\ match fst (fst l) with
     | Thrown _ => inputSize (snd (fst l)) = inputSize st
     | Returned g =>
         match GraphModel.inputs g with
         | first :: _ =>
             match GraphModel.input_shape first with
             | Some (_, _, width, _) =>
                 inputSize (snd (fst l))
                 = if Qeq_bool width (-1) then 64 else width
             | None => inputSize (snd (fst l)) = 0
             end
         | [] => False
         end
     end.
Proof.
  intros st l. split; [|split].
  - apply not_true_is_false. intros Heq. apply Qeq_bool_iff in Heq. revert Heq.
    subst st.
    assert (Hgen : forall st, ~ inputSize st == -1 ->
                              ~ inputSize (run cs st) == -1).
    { induction cs as [|c rest IH]; intros st Hst; [exact Hst|].
      simpl. apply IH.
      destruct c as [input' config' env' clock' | config' env']; simpl.
      - destruct (predict_keeps_model input' config' env' clock' st) as [_ ->].
        exact Hst.
      - apply load_inputSize. exact Hst. }
    apply Hgen. simpl. intros Hc. discriminate Hc.
  - apply predict_keeps_model.
  - subst l. rewrite load_cases.
    assert (Hset : forall g ev,
              match fst (fst (set_inputSize (Some g) st ev)) with
              | Thrown _ =>
                  inputSize (snd (fst (set_inputSize (Some g) st ev)))
                  = inputSize st
              | Returned g' =>
                  match GraphModel.inputs g' with
                  | first :: _ =>
                      match GraphModel.input_shape first with
                      | Some (_, _, width, _) =>
                          inputSize (snd (fst (set_inputSize (Some g) st ev)))
                          = if Qeq_bool width (-1) then 64 else width
                      | None =>
                          inputSize (snd (fst (set_inputSize (Some g) st ev))) = 0
                      end
                  | [] => False
                  end
              end).
    { intros g ev. unfold set_inputSize.
      destruct (GraphModel.inputs g) as [|first rest] eqn:Hin; simpl;
        [reflexivity|].
      rewrite Hin.
      destruct (GraphModel.input_shape first) as [[[[batch height] width] ch]|];
        reflexivity. }
    destruct (stored_model env st) as [g|]; [apply Hset|].
    destruct (loadGraphModel (model_path config)) as [|[g|]];
      [reflexivity | apply Hset | reflexivity].
Qed.

(** X6.  A reload that fails takes the model away: when [env.initial] is
    set and the loader rejects, [load] raises and the stored model is
    null afterwards, while the cache stays.  A call of [predict] with the
    mesh stage enabled then returns faces without mesh and with score 0,
    never runs a mesh model, and leaves the cache empty. *)
Theorem failed_reload_drops_model `{Imports} (config : Config.t) (env : Env.t)
    (st : State) (input : Tensor) (config' : Config.t) (env' : Env.t)
    (clock : Clock.t) :
  Env.initial env = true ->
  loadGraphModel (model_path config) = Rejected ->
  cfg_mesh_enabled config' = true ->
  let st1 := snd (fst (load config env st)) in
  let r := predict input config' env' clock st1 in
  fst (fst (load config env st)) = Thrown LoadRejected
  /\ model st1 = None
  /\ boxCache st1 = boxCache st
  /\ Forall (fun f => FaceResult.mesh f = [] /\ FaceResult.score f = 0)
            (fst (fst r))
  /\ occurrences EvExecute (snd r) = 0%nat
  /\ boxCache (snd (fst r)) = [].
Proof.
  intros Hinit Hrej Hmesh st1 r.
  assert (Hload : load config env st
                  = (Thrown LoadRejected,
                     mkState (boxCache st) None (inputSize st) (skipped st)
                             (lastTime st),
                     [EvLoadGraphModel (model_path config)])).
  { rewrite load_cases. unfold stored_model. rewrite Hinit, Hrej. reflexivity. }
  assert (Hnone : model st1 = None) by (subst st1; rewrite Hload; reflexivity).
  split; [rewrite Hload; reflexivity|].
  split; [exact Hnone|].
  split; [subst st1; rewrite Hload; reflexivity|].
  split; [|split].
  - apply Forall_forall. intros f Hf.
    apply list_elem_of_In, predict_face_in in Hf as (id & box & _ & ->).
    rewrite Hnone.
    destruct (body_unloaded config' env' input (inputSize st1) id box Hmesh)
      as (Hm & _ & _ & Hs & _).
    split; assumption.
  - subst r. rewrite (predict_occurrences input config' env' clock st1 _ 0%nat).
    + lia.
    + reflexivity.
    + intros id box. rewrite body_executes, Hnone, andb_false_r. reflexivity.
  - subst r. rewrite predict_cache, omap_kept_passed.
    rewrite filter_passed_none by (right; exact Hnone). reflexivity.
Qed.

(** ** predict: what is written, what is called *)

(** X7.  The two functions write disjoint module variables: [predict]
    never changes [model] or [inputSize], and [load] never changes the
    cache, the counter of skipped frames or the time stamp, whether it
    returns or raises.  So loading another model keeps the boxes cached
    under the previous one. *)
Theorem writes_are_disjoint `{Imports} (input : Tensor) (config : Config.t)
    (env : Env.t) (clock : Clock.t) (st : State) :
  let p := snd (fst (predict input config env clock st)) in
  let l := snd (fst (load config env st)) in
  (model p = model st /\ inputSize p = inputSize st)
  /\ (boxCache l = boxCache st /\ skipped l = skipped st
      /\ lastTime l = lastTime st).
Proof.
  intros p l. split.
  - apply predict_keeps_model.
  - apply load_keeps.
Qed.

Section TraceFacts.
Context `{Imports}.
Variables (config : Config.t) (env : Env.t) (input : Tensor).
Variables (mdl : option GraphModel.t) (size : number).



(** Iris augmentation happens in the passes that pass, if it is on. *)
Lemma body_iris (id : number) (box : BoxCache) :
  let s := body config env input mdl size id box in
  occurrences EvAugmentIris (events s)
  = (if cfg_iris_enabled config && passed config mdl s then 1 else 0)%nat.
Proof.
  simpl. rewrite body_events. unfold passed.
  destruct (use_rotation config env), (cfg_mesh_enabled config), mdl; simpl;
    rewrite ?andb_false_r; try reflexivity;
    try match goal with |- context [js_lt ?a ?b] => destruct (js_lt a b) end;
    destruct (cfg_iris_enabled config), (Config.debug config); reflexivity.
Qed.

Lemma steps_iris (boxes : list BoxCache) :
  forall id,
    let ss := steps config env input mdl size id boxes in
    occurrences EvAugmentIris (concat (map events ss))
    = (if cfg_iris_enabled config then length (omap kept ss) else 0)%nat.
Proof.
  induction boxes as [|b bs IH]; intros id; simpl.
  - destruct (cfg_iris_enabled config); reflexivity.
  - rewrite occurrences_app, IH.
    pose proof (body_iris id b) as Hi. simpl in Hi. rewrite Hi.
    pose proof (body_kept config env input mdl size id b) as Hk. simpl in Hk.
    rewrite Hk.
    destruct (cfg_iris_enabled config),
             (passed config mdl (body config env input mdl size id b));
      reflexivity.
Qed.

Lemma omap_kept_length (ss : list Step) : (length (omap kept ss) <= length ss)%nat.
Proof.
  induction ss as [|s ss IH]; [reflexivity|].
  cbn. destruct (kept s); cbn; fold (omap kept ss); lia.
Qed.
End TraceFacts.


(** X9.  Iris augmentation is run for exactly the faces whose mesh is
    kept: with [config.face.iris.enabled] set it is called as many times
    as there are boxes in the cache after the call, and never otherwise. *)
Theorem iris_runs_for_kept_faces `{Imports} (input : Tensor)
    (config : Config.t) (env : Env.t) (clock : Clock.t) (st : State) :
  let r := predict input config env clock st in
  occurrences EvAugmentIris (snd r)
  = (if cfg_iris_enabled config then length (boxCache (snd (fst r))) else 0)%nat.
Proof.
  intros r. subst r. rewrite predict_cache, predict_steps. simpl.
  rewrite occurrences_app, steps_iris, detect_events.
  destruct (refresh_due _ _ _); reflexivity.
Qed.

(** X10.  The cache never grows without the detector: after a call it
    holds at most as many boxes as faces were returned, which is the
    number of detected boxes when the detector ran and the size of the
    cache before the call when it did not. *)
Theorem cache_never_grows `{Imports} (input : Tensor) (config : Config.t)
    (env : Env.t) (clock : Clock.t) (st : State) :
  let r := predict input config env clock st in
  (length (boxCache (snd (fst r))) <= length (fst (fst r)))%nat
  /\ length (fst (fst r))
     = if detector_ran (snd r)
       then length (Blazeface.boxes (getBoxes input config))
       else length (boxCache st).
Proof.
  intros r. subst r. rewrite predict_detector_ran, predict_cache.
  rewrite predict_steps. simpl. rewrite length_map. split.
  - apply omap_kept_length.
  - rewrite steps_length. unfold processed, detect.
    destruct (refresh_due _ _ _); simpl; [|reflexivity].
    rewrite push_boxes_map. apply length_map.
Qed.

(** ** predict: the faces by mode *)

Section ModeFacts.
Context `{Imports}.
Variables (input : Tensor) (config : Config.t) (env : Env.t) (clock : Clock.t).



(** The pass with the mesh stage on and a model loaded: the mesh is
    refused or kept. *)
Lemma body_mesh_mode (m : GraphModel.t) (size id : number) (box : BoxCache) :
  cfg_mesh_enabled config = true ->
  let s := body config env input (Some m) size id box in
  let f := face s in
  (FaceResult.faceScore f < cfg_minConfidence config
   /\ FaceResult.score f = 0 /\ FaceResult.mesh f = []
   /\ FaceResult.box f = zero_box /\ kept s = None)
  \/ (cfg_minConfidence config <= FaceResult.faceScore f
      /\ FaceResult.score f = FaceResult.faceScore f
      /\ FaceResult.box f = getClampedBox (mesh_box (FaceResult.mesh f)) input
      /\ FaceResult.boxRaw f = getRawBox (mesh_box (FaceResult.mesh f)) input
      /\ map fst (FaceResult.annotations f) = map fst meshAnnotations
      /\ kept s = Some (mesh_box (FaceResult.mesh f))).
Proof.
  intros Hmesh. unfold body.
  destruct (crop config env input size box) as [[[a rm] t] ev].
  rewrite Hmesh. simpl.
  destruct (js_lt (round2 (GraphModel.faceConfidence (GraphModel.execute m t)))
                  (cfg_minConfidence config)) eqn:Hlow; simpl.
  - left. apply js_lt_true in Hlow. auto.
  - right. apply js_lt_false in Hlow.
    repeat split; try reflexivity; [exact Hlow|].
    rewrite map_map. reflexivity.
Qed.
End ModeFacts.


(** X12.  With the mesh stage enabled and a model loaded, every face
    returned is of one of two kinds.  Either its face score is below the
    threshold, and then it has score 0, no mesh and the zero box; or its
    face score reaches the threshold, and then the score is the face
    score, the box is the clamped box re-derived from its mesh, that
    re-derived box is in the cache after the call, and the annotations
    carry the keys of the mesh annotation table in order. *)
Theorem mesh_faces_dichotomy `{Imports} (input : Tensor) (config : Config.t)
    (env : Env.t) (clock : Clock.t) (st : State) (m : GraphModel.t) :
  cfg_mesh_enabled config = true ->
  model st = Some m ->
  let r := predict input config env clock st in
  Forall
    (fun f =>
       (FaceResult.faceScore f < cfg_minConfidence config
        /\ FaceResult.score f = 0 /\ FaceResult.mesh f = []
        /\ FaceResult.box f = zero_box)
       \/ (cfg_minConfidence config <= FaceResult.faceScore f
           /\ FaceResult.score f = FaceResult.faceScore f
           /\ FaceResult.box f
              = getClampedBox (mesh_box (FaceResult.mesh f)) input
           /\ FaceResult.boxRaw f
              = getRawBox (mesh_box (FaceResult.mesh f)) input
           /\ map fst (FaceResult.annotations f) = map fst meshAnnotations
           /\ In (mesh_box (FaceResult.mesh f)) (boxCache (snd (fst r)))))
    (fst (fst r)).
Proof.
  intros Hmesh Hm r. subst r. apply Forall_forall. intros f Hf.
  apply list_elem_of_In in Hf.
  rewrite predict_cache. rewrite predict_steps in Hf. simpl in Hf.
  apply in_map_iff in Hf as (s & <- & Hs).
  pose proof Hs as Hs'. apply steps_in in Hs' as (id & box & _ & Hbody).
  rewrite Hm in Hbody.
  pose proof (body_mesh_mode input config env m (inputSize st) id box Hmesh)
    as Hmode. simpl in Hmode. rewrite <- Hbody in Hmode.
  destruct Hmode as [(Hlow & Hsc & Hme & Hbx & _)
                    | (Hok & Hsc & Hbx & Hraw & Hann & Hkept)].
  - left. auto.
  - right. repeat split; try assumption.
    apply list_elem_of_In, list_elem_of_omap.
    exists s. split; [apply list_elem_of_In; exact Hs | exact Hkept].
Qed.

(** ** Defaults, edge cases and bounds *)

Section EdgeFacts.
Context `{Imports}.

(** A [minConfidence] that is missing or zero is replaced by 1. *)
Lemma cfg_minConfidence_default (config : Config.t) :
  match Config.detector (Config.face config) ≫= Config.minConfidence with
  | Some mc => mc == 0
  | None => True
  end ->
  cfg_minConfidence config = 1.
Proof.
  unfold cfg_minConfidence. intros Hz.
  destruct (Config.detector (Config.face config)) as [d|];
    simpl in *; [|reflexivity].
  destruct (Config.minConfidence d) as [mc|]; simpl in *; [|reflexivity].
  unfold num_or, truthy.
  apply Qeq_bool_iff in Hz. rewrite Hz. reflexivity.
Qed.

(** In every reachable state the counter is a whole number that is not
    negative. *)
Lemma skipped_whole (cs : list call) :
  forall st,
    (exists k, (0 <= k)%Z /\ skipped st == inject_Z k) ->
    exists k, (0 <= k)%Z /\ skipped (run cs st) == inject_Z k.
Proof.
  induction cs as [|c rest IH]; intros st Hst; [exact Hst|].
  simpl. apply IH. destruct Hst as (k & Hk & Hs).
  destruct c as [input config env clock | config env]; simpl.
  - rewrite predict_steps. simpl. unfold detect.
    destruct (refresh_due _ _ _); simpl.
    + exists 0%Z. split; [lia | reflexivity].
    + exists (k + 1)%Z. split; [lia|].
      rewrite Hs, inject_Z_plus. reflexivity.
  - destruct (load_keeps config env st) as (_ & -> & _). eauto.
Qed.

(** The time stamp after a history: the one it started with if no call
    ran the detector, and otherwise the reading taken after the detector
    in the last call that ran it. *)
Lemma lastTime_run (cs : list call) :
  forall st,
    (undetected cs st = true /\ lastTime (run cs st) = lastTime st)
    \/ exists pre input config env clock post,
         cs = pre ++ CallPredict input config env clock :: post
         /\ detector_ran
              (snd (predict input config env clock (run pre st))) = true
         /\ undetected post
              (run (pre ++ [CallPredict input config env clock]) st) = true
         /\ lastTime (run cs st) = Clock.detected clock.
Proof.
  induction cs as [|c rest IH]; intros st; [left; split; reflexivity|].
  destruct (IH (step st c))
    as [[Hquiet Hsame]
       | (pre & i & cf & e & ck & post & -> & Hran & Hquiet & Hlast)].
  - destruct c as [input config env clock | config env].
    + destruct (detector_ran (snd (predict input config env clock st)))
        eqn:Hran.
      * right. exists [], input, config, env, clock, rest.
        split; [reflexivity|]. split; [exact Hran|]. split; [exact Hquiet|].
        change (run (CallPredict input config env clock :: rest) st)
          with (run rest (step st (CallPredict input config env clock))).
        rewrite Hsame. unfold step.
        rewrite predict_detector_ran in Hran.
        rewrite predict_steps. simpl. unfold detect. rewrite Hran. reflexivity.
      * left. split; [simpl; rewrite Hran; exact Hquiet|].
        change (run (CallPredict input config env clock :: rest) st)
          with (run rest (step st (CallPredict input config env clock))).
        rewrite Hsame. unfold step.
        rewrite predict_detector_ran in Hran.
        rewrite predict_steps. simpl. unfold detect. rewrite Hran. reflexivity.
    + left. split; [exact Hquiet|].
      change (run (CallLoad config env :: rest) st)
        with (run rest (step st (CallLoad config env))).
      rewrite Hsame. unfold step.
      destruct (load_keeps config env st) as (_ & _ & ->). reflexivity.
  - right. exists (c :: pre), i, cf, e, ck, post.
    split; [reflexivity|]. split; [exact Hran|]. split; [exact Hquiet|].
    exact Hlast.
Qed.
End EdgeFacts.

(** There are at least as many faces with a property as boxes kept, if
    every pass that keeps its box returns a face with the property. *)
Lemma kept_among_faces `{Imports} (P : FaceResult.t -> bool) (ss : list Step) :
  (forall s, In s ss -> kept s <> None -> P (face s) = false) ->
  (length (omap kept ss)
   <= length (filter (fun f => P f = false) (map face ss)))%nat.
Proof.
  induction ss as [|s ss IH]; intros HP; [reflexivity|].
  assert (IH' := IH (fun s' Hin => HP s' (or_intror Hin))).
  change (map face (s :: ss)) with (face s :: map face ss).
  change (omap kept (s :: ss))
    with (match kept s with Some y => y :: omap kept ss | None => omap kept ss end).
  destruct (kept s) as [b|] eqn:Hk.
  - rewrite filter_cons_True
      by (apply HP; [left; reflexivity | rewrite Hk; discriminate]).
    simpl. lia.
  - destruct (P (face s)) eqn:HPs.
    + rewrite filter_cons_False by (rewrite HPs; discriminate). exact IH'.
    + rewrite filter_cons_True by exact HPs. simpl. lia.
Qed.

(** X13.  A [minConfidence] that is missing or zero does not accept every
    mesh: the threshold is then 1, so with the mesh stage enabled every
    face whose face score is below 1 is returned without mesh and with
    score 0, and only faces with a face score of at least 1 leave a box
    in the cache. *)
Theorem zero_minConfidence_means_one `{Imports} (input : Tensor)
    (config : Config.t) (env : Env.t) (clock : Clock.t) (st : State) :
  match Config.detector (Config.face config) ≫= Config.minConfidence with
  | Some mc => mc == 0
  | None => True
  end ->
  cfg_mesh_enabled config = true ->
  let r := predict input config env clock st in
  cfg_minConfidence config = 1
  /\ Forall (fun f => FaceResult.faceScore f < 1 ->
                      FaceResult.mesh f = [] /\ FaceResult.score f = 0)
            (fst (fst r))
  /\ (length (boxCache (snd (fst r)))
      <= length (filter (fun f => js_lt (FaceResult.faceScore f) 1%Q = false)
                        (fst (fst r))))%nat.
Proof.
  intros Hzero Hmesh r. subst r.
  pose proof (cfg_minConfidence_default config Hzero) as Hone.
  split; [exact Hone|].
  assert (Hpass : forall id box,
            let s := body config env input (model st) (inputSize st) id box in
            (FaceResult.faceScore (face s) < 1 ->
             FaceResult.mesh (face s) = [] /\ FaceResult.score (face s) = 0)
            /\ (kept s <> None -> 1 <= FaceResult.faceScore (face s))).
  { intros id box. destruct (model st) as [m|].
    - pose proof (body_mesh_mode input config env m (inputSize st) id box Hmesh)
        as Hmode. simpl in *. rewrite Hone in Hmode.
      destruct Hmode as [(Hlow & Hsc & Hme & _ & Hk) | (Hok & _)].
      + split; [auto | intros Hc; contradiction].
      + split; [intros Hlt; lra | intros _; exact Hok].
    - destruct (body_unloaded config env input (inputSize st) id box Hmesh)
        as (Hm & _ & _ & Hs & _).
      split; [auto|]. intros Hk. exfalso. apply Hk.
      pose proof (body_kept config env input None (inputSize st) id box) as Hkept.
      simpl in Hkept. rewrite Hkept, passed_none by (right; reflexivity).
      reflexivity. }
  split.
  - apply Forall_forall. intros f Hf.
    apply list_elem_of_In, predict_face_in in Hf as (id & box & _ & ->).
    apply Hpass.
  - rewrite predict_cache, predict_steps. simpl.
    apply kept_among_faces. intros s Hs Hk.
    apply steps_in in Hs as (id & box & _ & ->).
    apply js_lt_false. apply (Hpass id box). exact Hk.
Qed.

(** X14.  A [skipFrames] that is missing, zero or negative switches frame
    skipping off: in every state the module can reach the counter of
    skipped frames is a whole number that is not negative, so every call
    of [predict] with such a configuration runs the detector. *)
Theorem no_skipFrames_always_detects `{Imports} (cs : list call)
    (input : Tensor) (config : Config.t) (env : Env.t) (clock : Clock.t) :
  cfg_skipFrames config <= 0 ->
  (exists k, (0 <= k)%Z /\ skipped (run cs init) == inject_Z k)
  /\ detector_ran (snd (predict input config env clock (run cs init))) = true.
Proof.
  intros Hzero.
  assert (Hwhole : exists k, (0 <= k)%Z /\ skipped (run cs init) == inject_Z k).
  { apply skipped_whole. exists (2 ^ 53 - 1)%Z. split; [lia | reflexivity]. }
  split; [exact Hwhole|].
  destruct Hwhole as (k & Hk & Hs).
  rewrite predict_detector_ran. apply refresh_due_iff.
  right. right. left. rewrite Hs.
  rewrite Zle_Qle in Hk. change (inject_Z 0) with 0 in Hk. lra.
Qed.

(** X15.  When the detector runs and finds no face, [predict] returns no
    face, makes no other call, leaves the cache empty with the counter at
    0 and the time stamp at the reading taken after the detector, and the
    next call runs the detector again whatever its configuration. *)
Theorem empty_detection `{Imports} (input : Tensor) (config : Config.t)
    (env : Env.t) (clock : Clock.t) (st : State) :
  detector_ran (snd (predict input config env clock st)) = true ->
  Blazeface.boxes (getBoxes input config) = [] ->
  let r := predict input config env clock st in
  r = ([], mkState [] (model st) (inputSize st) 0 (Clock.detected clock),
       [EvGetBoxes])
  /\ forall input' config' env' clock',
       detector_ran (snd (predict input' config' env' clock' (snd (fst r))))
       = true.
Proof.
  rewrite predict_detector_ran. intros Hdue Hnone r.
  assert (Hr : r = ([], mkState [] (model st) (inputSize st) 0
                                (Clock.detected clock), [EvGetBoxes])).
  { subst r. rewrite predict_steps. unfold processed, detect.
    rewrite Hdue. simpl. rewrite Hnone. reflexivity. }
  split; [exact Hr|].
  intros input' config' env' clock'. rewrite Hr, predict_detector_ran.
  apply refresh_due_iff. simpl. tauto.
Qed.

(** X17.  The time stamp [lastTime] is only ever a reading taken after
    the detector has answered.  After a history of calls in which no call
    of [predict] ran the detector it is 0, its initial value; otherwise it
    is the second clock reading of the last call of [predict] that ran the
    detector: the calls of [load] and the calls of [predict] that went
    without the detector since then have left it unchanged. *)
Theorem lastTime_provenance `{Imports} (cs : list call) :
  (undetected cs init = true /\ lastTime (run cs init) = 0)
  \/ exists pre input config env clock post,
       cs = pre ++ CallPredict input config env clock :: post
       /\ detector_ran
            (snd (predict input config env clock (run pre init))) = true
       /\ undetected post
            (run (pre ++ [CallPredict input config env clock]) init) = true
       /\ lastTime (run cs init) = Clock.detected clock.
Proof. apply (lastTime_run cs init). Qed.

(** ** The further properties on the concrete instance *)

(** X1: the sure model is returned and stored; a model without input
    signature makes [load] raise a TypeError. *)
Lemma load_outcome_witness :
  let good := Demo.imports (Resolved (Some Demo.sure)) in
  let bad := Demo.imports (Resolved (Some Scenes.hollow)) in
  let config := Demo.config 1 in
  fst (fst (@load Demo.tfjs good config Demo.env init)) = Returned Demo.sure
  /\ model (snd (fst (@load Demo.tfjs good config Demo.env init)))
     = Some Demo.sure
  /\ fst (fst (@load Demo.tfjs bad config Demo.env init)) = Thrown TypeError.
Proof.
  intros good bad config.
  destruct (@load_outcome Demo.tfjs good config Demo.env init)
    as (Hret & _ & Hmodel).
  destruct (@load_outcome Demo.tfjs bad config Demo.env init)
    as (_ & Hthrow & _).
  assert (Hgood : fst (fst (@load Demo.tfjs good config Demo.env init))
                  = Returned Demo.sure).
  { apply Hret. split; [right; split; reflexivity | discriminate]. }
  split; [exact Hgood|].
  split; [apply Hmodel; exact Hgood|].
  apply Hthrow. right. right. exists Scenes.hollow.
  split; [right; split; reflexivity|]. split; reflexivity.
Defined.

(** X2: from the initial state the loader is called first and once; with
    a model stored it is not called. *)
Lemma load_fetches_iff_witness :
  let I := Demo.imports (Resolved (Some Demo.sure)) in
  let config := Demo.config 1 in
  stored_model Demo.env (@init Demo.tfjs) = None
  /\ head (snd (@load Demo.tfjs I config Demo.env init))
     = Some (EvLoadGraphModel "models/facemesh.json")
  /\ occurrences (EvLoadGraphModel "models/facemesh.json")
       (snd (@load Demo.tfjs I config Demo.env (Demo.loaded Demo.sure)))
     = 0%nat.
Proof.
  intros I config.
  destruct (@load_fetches_iff Demo.tfjs I config Demo.env init)
    as (_ & _ & Hhead).
  destruct (@load_fetches_iff Demo.tfjs I config Demo.env
              (Demo.loaded Demo.sure)) as (_ & Hcount & _).
  split; [reflexivity|].
  split; [exact (Hhead eq_refl) | exact Hcount].
Defined.

(** X3: a model without [modelUrl] is reported although [config.debug]
    is not set. *)
Lemma load_failure_logged_iff_witness :
  let I := Demo.imports (Resolved (Some Demo.nameless)) in
  let config := Scenes.config (Some 0.2) in
  Config.debug config = false
  /\ has_url Demo.nameless = false
  /\ In (EvLog "load model failed:" (Some "facemesh.json"%string))
        (snd (@load Demo.tfjs I config Demo.env init)).
Proof.
  intros I config.
  destruct (@load_failure_logged_iff Demo.tfjs I config Demo.env init)
    as (Hfail & _ & _).
  split; [reflexivity|]. split; [reflexivity|].
  apply Hfail. split; [reflexivity|]. split; [reflexivity|].
  right. exists Demo.nameless. split; reflexivity.
Defined.

(** X4: a second [load], with another configuration, changes nothing. *)
Lemma load_again_is_cached_witness :
  let I := Demo.imports (Resolved (Some Demo.sure)) in
  let st1 := snd (fst (@load Demo.tfjs I (Demo.config 1) Demo.env init)) in
  fst (fst (@load Demo.tfjs I (Demo.config 1) Demo.env init))
  = Returned Demo.sure
  /\ Env.initial Demo.env = false
  /\ inputSize st1 = 192
  /\ fst (@load Demo.tfjs I Demo.detector_only Demo.env st1)
     = (Returned Demo.sure, st1)
  /\ snd (@load Demo.tfjs I Demo.detector_only Demo.env st1) = [].
Proof.
  intros I st1.
  assert (Hret : fst (fst (@load Demo.tfjs I (Demo.config 1) Demo.env init))
                 = Returned Demo.sure) by reflexivity.
  destruct (@load_again_is_cached Demo.tfjs I (Demo.config 1)
              Demo.detector_only Demo.env Demo.env init Demo.sure Hret eq_refl)
    as (Hsame & Hlog).
  split; [exact Hret|]. split; [reflexivity|]. split; [reflexivity|].
  split; [exact Hsame | exact Hlog].
Defined.

(** X6: after a restart the loader rejects; the model is gone, the cached
    box stays, and the next frame returns one face without mesh. *)
Lemma failed_reload_drops_model_witness :
  let I := Demo.imports Rejected in
  let config := Demo.config 1 in
  let st := mkState [Demo.box] (Some Demo.sure) 192 0 15 in
  let st1 := snd (fst (@load Demo.tfjs I config Scenes.restarted st)) in
  let r := @predict Demo.tfjs I tt config Demo.env (Demo.clock 1) st1 in
  Env.initial Scenes.restarted = true
  /\ model st1 = None
  /\ boxCache st1 = [Demo.box]
  /\ (FaceResult.mesh <$> fst (fst r)) = [[]]
  /\ boxCache (snd (fst r)) = [].
Proof.
  intros I config st st1 r.
  destruct (@failed_reload_drops_model Demo.tfjs I config Scenes.restarted st
              tt config Demo.env (Demo.clock 1) eq_refl eq_refl eq_refl)
    as (_ & Hnone & Hcache & _ & _ & Hempty).
  split; [reflexivity|]. split; [exact Hnone|]. split; [exact Hcache|].
  split; [vm_compute; reflexivity | exact Hempty].
Defined.


(** X12: the sure model passes the threshold 0.2 with 0.99, the unsure
    one fails it with 0.1. *)
Lemma mesh_faces_dichotomy_witness :
  let I := Demo.imports Rejected in
  let config := Demo.config 1 in
  let r := @predict Demo.tfjs I tt config Demo.env (Demo.clock 0)
             (Demo.loaded Demo.sure) in
  cfg_mesh_enabled config = true
  /\ model (Demo.loaded Demo.sure) = Some Demo.sure
  /\ (FaceResult.faceScore <$> fst (fst r)) = [0.99]
  /\ Forall (fun f =>
               FaceResult.faceScore f < cfg_minConfidence config
               \/ FaceResult.score f = FaceResult.faceScore f)
            (fst (fst r)).
Proof.
  intros I config r.
  pose proof (@mesh_faces_dichotomy Demo.tfjs I tt config Demo.env
                (Demo.clock 0) (Demo.loaded Demo.sure) Demo.sure
                eq_refl eq_refl) as Hall.
  split; [reflexivity|]. split; [reflexivity|].
  split; [vm_compute; reflexivity|].
  eapply Forall_impl; [exact Hall|].
  intros f [(Hlow & _) | (_ & Hsc & _)]; [left; exact Hlow | right; exact Hsc].
Defined.

(** X13: with [minConfidence] 0 even the sure model, at 0.99, is
    refused. *)
Lemma zero_minConfidence_means_one_witness :
  let I := Demo.imports Rejected in
  let config := Scenes.config (Some 0) in
  let r := @predict Demo.tfjs I tt config Demo.env (Demo.clock 0)
             (Demo.loaded Demo.sure) in
  cfg_mesh_enabled config = true
  /\ cfg_minConfidence config = 1
  /\ (FaceResult.faceScore <$> fst (fst r)) = [0.99]
  /\ Forall (fun f => FaceResult.faceScore f < 1 ->
                      FaceResult.mesh f = [] /\ FaceResult.score f = 0)
            (fst (fst r))
  /\ boxCache (snd (fst r)) = [].
Proof.
  intros I config r.
  assert (Hzero : match Config.detector (Config.face config)
                        ≫= Config.minConfidence with
                  | Some mc => mc == 0
                  | None => True
                  end) by reflexivity.
  destruct (@zero_minConfidence_means_one Demo.tfjs I tt config Demo.env
              (Demo.clock 0) (Demo.loaded Demo.sure) Hzero eq_refl)
    as (Hone & Hall & _).
  split; [reflexivity|]. split; [exact Hone|].
  split; [vm_compute; reflexivity|].
  split; [exact Hall | vm_compute; reflexivity].
Defined.

(** X14: with [skipFrames] 0 the third frame runs the detector like the
    two before it. *)
Lemma no_skipFrames_always_detects_witness :
  let I := Demo.imports (Resolved (Some Demo.sure)) in
  let config := Demo.config 0 in
  let cs := [CallLoad config Demo.env; Demo.frame 0 config;
             Demo.frame 1 config] in
  cfg_skipFrames config <= 0
  /\ skipped (@run Demo.tfjs I cs init) = 0
  /\ detector_ran
       (snd (@predict Demo.tfjs I tt config Demo.env (Demo.clock 2)
               (@run Demo.tfjs I cs init))) = true.
Proof.
  intros I config cs.
  assert (Hzero : cfg_skipFrames config <= 0) by (vm_compute; discriminate).
  destruct (@no_skipFrames_always_detects Demo.tfjs I cs tt config Demo.env
              (Demo.clock 2) Hzero) as (_ & Hran).
  split; [exact Hzero|]. split; [vm_compute; reflexivity | exact Hran].
Defined.

(** X15: a frame in which the detector finds nothing. *)
Lemma empty_detection_witness :
  let r := @predict Demo.tfjs Scenes.blind tt (Demo.config 1) Demo.env
             (Demo.clock 0) (Demo.loaded Demo.sure) in
  detector_ran (snd r) = true
  /\ Blazeface.boxes (@getBoxes Demo.tfjs Scenes.blind tt (Demo.config 1)) = []
  /\ fst (fst r) = []
  /\ lastTime (snd (fst r)) = 15
  /\ detector_ran
       (snd (@predict Demo.tfjs Scenes.blind tt (Demo.config 1) Demo.env
               (Demo.clock 1) (snd (fst r)))) = true.
Proof.
  intros r.
  assert (Hran : detector_ran (snd r) = true) by (vm_compute; reflexivity).
  destruct (@empty_detection Demo.tfjs Scenes.blind tt (Demo.config 1)
              Demo.env (Demo.clock 0) (Demo.loaded Demo.sure) Hran eq_refl)
    as (Hr & Hnext).
  split; [exact Hran|]. split; [reflexivity|].
  split; [fold r in Hr; rewrite Hr; reflexivity|].
  split; [fold r in Hr; rewrite Hr; reflexivity|].
  apply Hnext.
Defined.
